(** * pdf-diploma-scanner: the page heuristic of [scanner.py], embedded and verified

    The development follows the source file top to bottom.

    - [PyStr]: Python [str] values as lists of Unicode code points, with the
      few string and [re] operations the scanner calls.
    - [Item], [span], [line], [block], [page]: the dictionaries the scanner
      reads and builds.
    - [extract_name_and_passkey_improved]: text collection, the sort by
      y-position, the name loop and the passkey loop.
    - [scan_pdf_batch]: the batch driver, with its prints and the spreadsheet
      it writes as explicit effects.

    Numbers are IEEE-754 binary64 values ([PrimFloat.float]), which is what a
    Python [float] is; 0.2, 0.8, ... denote the nearest binary64 value in both
    languages. *)

From Stdlib Require Import String Ascii.
From Stdlib Require Import List Bool ZArith NArith Lia.
From Stdlib Require Import Floats.
From Stdlib Require Import Sorted Permutation.
Import ListNotations.

Set Warnings "-inexact-float".

(* ================================================================== *)
(** * Part I: definitions                                              *)
(* ================================================================== *)

(** ** Python strings *)

Module PyStr.

(** A code point, and a [str]: a sequence of code points. *)
Definition char := N.
Definition t := list char.

Definition chr (a : ascii) : char := N_of_ascii a.

(** String literals of the source. *)
Fixpoint lit (s : string) : t :=
  match s with
  | EmptyString => []
  | String a s' => chr a :: lit s'
  end.

(** What Python looks up in the Unicode character database for code points
    outside ASCII.  The scanner never spells these tables out, so they are a
    parameter of the model: [ucd_isspace] is [str.isspace] on one code
    point (also the class [\s] of [re]), [ucd_isalnum] is [str.isalnum]
    (which, with [_], is the class [\w] of [re]) and [ucd_lower] is
    [str.lower] on a string with non-ASCII content (it is not a
    character-wise map there). On ASCII everything is written out below. *)
Record ucd := {
  ucd_isspace : char -> bool;
  ucd_isalnum : char -> bool;
  ucd_lower : t -> t
}.

Definition in_range (lo hi c : char) : bool := ((lo <=? c) && (c <=? hi))%N.
Definition is_ascii (c : char) : bool := (c <? 128)%N.

(** [A-Z], [a-z], [0-9] as the patterns write them: plain code point
    ranges. *)
Definition is_AZ (c : char) : bool := in_range 65%N 90%N c.
Definition is_az (c : char) : bool := in_range 97%N 122%N c.
Definition is_09 (c : char) : bool := in_range 48%N 57%N c.

Section WithUnicode.
Variable db : ucd.

(** [str.isspace] for one code point, i.e. [\s]: on ASCII these are
    TAB, LF, VT, FF, CR, the separators 0x1C-0x1F and the space. *)
Definition isspace (c : char) : bool :=
  if is_ascii c
  then in_range 9%N 13%N c || in_range 28%N 31%N c || (c =? 32)%N
  else ucd_isspace db c.

Definition isalnum (c : char) : bool :=
  if is_ascii c then is_AZ c || is_az c || is_09 c else ucd_isalnum db c.

(** The class [\w] of a [str] pattern: alphanumerics and the underscore. *)
Definition is_word (c : char) : bool := isalnum c || (c =? 95)%N.

(** [s.strip()] *)
Fixpoint lstrip (s : t) : t :=
  match s with
  | [] => []
  | c :: s' => if isspace c then lstrip s' else s
  end.
Definition rstrip (s : t) : t := rev (lstrip (rev s)).
Definition strip (s : t) : t := rstrip (lstrip s).

(** [s.lower()] *)
Definition lower_ascii (c : char) : char := if is_AZ c then (c + 32)%N else c.
Definition lower (s : t) : t :=
  if forallb is_ascii s then map lower_ascii s else ucd_lower db s.

(** [needle in hay] *)
Fixpoint startswith (s p : t) {struct p} : bool :=
  match p, s with
  | [], _ => true
  | _ :: _, [] => false
  | a :: p', b :: s' => (a =? b)%N && startswith s' p'
  end.
Fixpoint contains (needle hay : t) : bool :=
  startswith hay needle ||
  match hay with
  | [] => false
  | _ :: hay' => contains needle hay'
  end.

(** *** The two regular expressions

    Both patterns are a greedy bounded repetition of a character class
    followed by a zero-width assertion. [re] runs such a pattern by
    taking as many class characters as it can (up to the upper bound) and
    then trying the assertion at that count, giving one character back
    at a time down to the lower bound. *)

(** Length of the longest prefix of [s] inside the class [p]. *)
Fixpoint run_length (p : char -> bool) (s : t) : nat :=
  match s with
  | c :: s' => if p c then S (run_length p s') else 0
  | [] => 0
  end.

(** The repetition counts tried, in order: [hi], [hi - 1], ..., [lo]. *)
Definition countdown (hi lo : nat) : list nat := rev (seq lo (S hi - lo)).

(** [$] without [re.MULTILINE]: the end of the string, or just before a
    newline that ends the string. *)
Definition at_dollar (rest : t) : bool :=
  match rest with
  | [] => true
  | [c] => (c =? 10)%N
  | _ => false
  end.

(** The class [[A-Za-z\s\.]]. *)
Definition name_class (c : char) : bool :=
  is_AZ c || is_az c || isspace c || (c =? 46)%N.

(** [re.match(r'^[A-Za-z\s\.]+$', s)], as a truth value. *)
Definition re_match_name (s : t) : bool :=
  existsb (fun n => at_dollar (skipn n s))
          (countdown (run_length name_class s) 1).

(** The class [[A-Z0-9]]. *)
Definition passkey_class (c : char) : bool := is_AZ c || is_09 c.

(** [\b]: exactly one of the two neighbours is a word character; outside
    the string there is none. *)
Definition word_at (o : option char) : bool :=
  match o with
  | Some c => is_word c
  | None => false
  end.
Definition at_boundary (before after : option char) : bool :=
  xorb (word_at before) (word_at after).

(** One attempt of [\b[A-Z0-9]{6,12}\b] at a position: [before] is the
    character left of the position, [s] the text from the position on. *)
Definition match_passkey_at (before : option char) (s : t) : option t :=
  if at_boundary before (hd_error s) then
    match find (fun n => at_boundary (nth_error s (n - 1)) (nth_error s n))
               (countdown (Nat.min 12 (run_length passkey_class s)) 6) with
    | Some n => Some (firstn n s)
    | None => None
    end
  else None.

(** [re.findall(r'\b[A-Z0-9]{6,12}\b', s)]: matches from left to right,
    the scan resuming where the previous match ended ([skip] counts the
    characters of that match still to pass). *)
Fixpoint findall_from (before : option char) (s : t) (skip : nat) : list t :=
  match s with
  | [] => []
  | c :: s' =>
      match skip with
      | S k => findall_from (Some c) s' k
      | O =>
          match match_passkey_at before s with
          | Some m => m :: findall_from (Some c) s' (length m - 1)
          | None => findall_from (Some c) s' 0
          end
      end
  end.
Definition re_findall_passkey (s : t) : list t := findall_from None s 0.

End WithUnicode.

(** A database that knows no character outside ASCII; the examples below
    are ASCII texts, on which the database is never consulted. *)
Definition ucd_none : ucd :=
  {| ucd_isspace := fun _ => false;
     ucd_isalnum := fun _ => false;
     ucd_lower := fun s => s |}.

End PyStr.

Abbreviation pystr := PyStr.t.
Arguments PyStr.lit s%_string.
Abbreviation py := PyStr.lit.

(** ** The dictionaries of one page *)

(** A span of [page.get_text("dict")]: its text, its bounding box
    [(x0, y0, x1, y1)] and its font size ([span.get('size', 0)] allows the
    key to be missing). *)
Record span := {
  span_text : pystr;
  span_bbox : float * float * float * float;
  span_size : option float
}.

Record line := { line_spans : list span }.

(** A block has a ["lines"] entry or not (image blocks have none). *)
Record block := { block_lines : option (list line) }.

Record page := {
  page_blocks : list block;      (* page.get_text("dict")["blocks"] *)
  rect_width : float;            (* page.rect.width *)
  rect_height : float            (* page.rect.height *)
}.

(** An entry of [all_text_items]. *)
Module Item.
Record t := mk {
  text : pystr;
  x : float;
  y : float;
  width : float;
  height : float;
  font_size : float
}.
End Item.
Abbreviation item := Item.t.

(** ** [extract_name_and_passkey_improved] *)

Section Scanner.
Variable db : PyStr.ucd.

(** Lines 27-37: the entry appended for one span, if any. *)
Definition span_item (s : span) : option item :=
  let text_content := PyStr.strip db (span_text s) in
  match text_content with
  | [] => None
  | _ :: _ =>
      let '(x0, y0, x1, y1) := span_bbox s in
      Some (Item.mk text_content x0 y0 (x1 - x0) (y1 - y0)
              (match span_size s with Some sz => sz | None => 0 end))
  end.

(** Lines 23-37: the three nested loops. *)
Definition line_items (l : line) : list item :=
  flat_map (fun s => match span_item s with Some it => [it] | None => [] end)
           (line_spans l).
Definition block_items (b : block) : list item :=
  match block_lines b with
  | Some ls => flat_map line_items ls
  | None => []
  end.
Definition collect_text_items (blocks : list block) : list item :=
  flat_map block_items blocks.

(** Line 40: [all_text_items.sort(key=lambda x: x['y'])]. [list.sort] is
    stable and compares keys with [<] only. On keys that are numbers every
    stable sort returns the same list, so the sort is written as the plain
    stable insertion sort: an element moves left past the strictly larger
    ones only. (With a NaN key [<] is no order and the result of the real
    sort depends on its merge strategy; statements about the sorted list
    assume keys that are not NaN.) *)
Fixpoint insert_by_y (it : item) (sorted : list item) : list item :=
  match sorted with
  | [] => [it]
  | e :: rest =>
      if (Item.y e <? Item.y it)%float
      then e :: insert_by_y it rest
      else it :: e :: rest
  end.
Definition sort_by_y (items : list item) : list item :=
  fold_right insert_by_y [] items.

Definition blocklist : list pystr :=
  [py "bachelor"; py "science"; py "hospitality"; py "management";
   py "philippines"; py "manila"; py "greetings"].

(** Lines 47-52: the condition of the name loop. *)
Definition is_name_candidate (page_width page_height : float) (it : item) : bool :=
  let text := Item.text it in
  (15 <? Item.font_size it)%float &&
  (page_width * 0.2 <? Item.x it)%float && (Item.x it <? page_width * 0.8)%float &&
  (page_height * 0.3 <? Item.y it)%float && (Item.y it <? page_height * 0.6)%float &&
  PyStr.re_match_name db text &&
  (5 <? length text)%nat &&
  negb (existsb (fun skip => PyStr.contains skip (PyStr.lower db text)) blocklist).

(** Lines 43-54: the name loop, leaving [name = ""] when it never breaks. *)
Fixpoint find_name (page_width page_height : float) (items : list item) : pystr :=
  match items with
  | [] => []
  | it :: rest =>
      if is_name_candidate page_width page_height it
      then Item.text it
      else find_name page_width page_height rest
  end.

(** Lines 61-62: the bottom right area. *)
Definition in_passkey_area (page_width page_height : float) (it : item) : bool :=
  (page_width * 0.7 <? Item.x it)%float && (page_height * 0.8 <? Item.y it)%float.

(** Lines 59-67: the passkey loop. *)
Fixpoint find_passkey (page_width page_height : float) (items : list item) : pystr :=
  match items with
  | [] => []
  | it :: rest =>
      if in_passkey_area page_width page_height it then
        match PyStr.re_findall_passkey db (Item.text it) with
        | m :: _ => m
        | [] => find_passkey page_width page_height rest
        end
      else find_passkey page_width page_height rest
  end.

(** Lines 43-69 on a given fragment list: the matcher. *)
Definition match_fields (page_width page_height : float) (items : list item)
  : pystr * pystr :=
  (find_name page_width page_height items,
   find_passkey page_width page_height items).

(** Lines 23-40: the extractor. *)
Definition all_text_items (p : page) : list item :=
  sort_by_y (collect_text_items (page_blocks p)).

Definition extract_name_and_passkey_improved (p : page) : pystr * pystr :=
  match_fields (rect_width p) (rect_height p) (all_text_items p).

End Scanner.

(** ** [scan_pdf_batch] *)

(** A row of [results], later of the data frame. *)
Record row := { Page : Z; Name : pystr; Passkey : pystr }.

(** An opened document: its pages. [len(doc)] is their number. *)
Definition document := list page.

(** What [fitz.open(pdf_path)] does: it raises (with a message) or returns
    the document. *)
Inductive opened :=
| OpenError (e : pystr)
| Opened (doc : document).

(** [doc[i]]: PyMuPDF refuses an index from [len(doc)] on, loads page [i]
    for [0 <= i] and counts a negative index back from the end, adding
    [len(doc)] until it is in range (an empty document has no page for it).
    [None] stands for the exception. *)
Definition doc_getitem (doc : document) (i : Z) : option page :=
  let n := Z.of_nat (length doc) in
  if (n <=? i)%Z then None
  else if (0 <=? i)%Z then nth_error doc (Z.to_nat i)
  else nth_error doc (Z.to_nat (i mod n)).

(** [range(a, b)] *)
Definition py_range (a b : Z) : list Z :=
  map (fun k => (a + Z.of_nat k)%Z) (seq 0 (Z.to_nat (b - a))).

(** The lines [print] writes, by the statement that writes them. *)
Inductive printed :=
| OpeningPDF (pdf_path : pystr)
| ErrorOpeningPDF (e : pystr)
| PDFHasPages (total_pages : Z)
| ProcessingPages (first last : Z)
| ProcessingPage (number total_pages : Z)
| NameLine (name : pystr)
| PasskeyLine (passkey : pystr)
| SavingResults (output_excel_path : pystr)
| ExtractionComplete (rows : nat)
| Summary (valid_names valid_passkeys : nat).

(** A data frame: its column labels and its rows. *)
Inductive column := ColPage | ColName | ColPasskey.

Record DataFrame := {
  columns : list column;
  records : list row
}.

(** [pd.DataFrame(results)] on a list of dictionaries: the columns are the
    keys of the dictionaries, so an empty list gives a frame with no column
    at all. *)
Definition pd_DataFrame (results : list row) : DataFrame :=
  {| columns := match results with
                | [] => []
                | _ :: _ => [ColPage; ColName; ColPasskey]
                end;
     records := results |}.

Definition column_eqb (a b : column) : bool :=
  match a, b with
  | ColPage, ColPage | ColName, ColName | ColPasskey, ColPasskey => true
  | _, _ => false
  end.

Definition nonempty (s : pystr) : bool :=
  match s with [] => false | _ :: _ => true end.

(** [df[df[c] != ''].shape[0]] for a text column [c]; [df[c]] raises
    [KeyError] ([None] here) when the frame has no column [c]. *)
Definition count_nonempty (df : DataFrame) (c : column) (field : row -> pystr)
  : option nat :=
  if existsb (column_eqb c) (columns df)
  then Some (length (filter (fun r => nonempty (field r)) (records df)))
  else None.

(** What a call leaves behind: the printed lines and the spreadsheets
    written ([df.to_excel(path, index=False)]). *)
Record effects := {
  stdout : list printed;
  written : list (pystr * DataFrame)
}.

(** The exceptions that leave [scan_pdf_batch]. *)
Inductive exception :=
| PageNotInDocument (page_num : Z)
| KeyError (c : column).

(** How a call ends: it returns [None] or the data frame, or an exception
    leaves it. *)
Inductive outcome :=
| Returns (df : option DataFrame)
| Raises (e : exception).

Section Batch.
Variable db : PyStr.ucd.

(** Lines 136-150: the loop over the page numbers. The first component is
    the list [results] the loop builds, or the exception of
    [doc[page_num]]; the second is what was printed. *)
Fixpoint process_pages (doc : document) (total_pages : Z) (page_nums : list Z)
  : (exception + list row) * list printed :=
  match page_nums with
  | [] => (inr [], [])
  | page_num :: rest =>
      let line1 := ProcessingPage (page_num + 1) total_pages in
      match doc_getitem doc page_num with
      | None => (inl (PageNotInDocument page_num), [line1])
      | Some page =>
          let '(name, passkey) := extract_name_and_passkey_improved db page in
          let result := {| Page := page_num + 1; Name := name; Passkey := passkey |} in
          let '(results, out) := process_pages doc total_pages rest in
          (match results with
           | inl e => inl e
           | inr rs => inr (result :: rs)
           end,
           line1 :: NameLine name :: PasskeyLine passkey :: out)
      end
  end.

(** Lines 113-168. [fitz_open] is the result of [fitz.open(pdf_path)]. *)
Definition scan_pdf_batch (fitz_open : opened) (pdf_path output_excel_path : pystr)
  (start_page : Z) (end_page : option Z) : outcome * effects :=
  match fitz_open with
  | OpenError e =>
      (Returns None,
       {| stdout := [OpeningPDF pdf_path; ErrorOpeningPDF e]; written := [] |})
  | Opened doc =>
      let total_pages := Z.of_nat (length doc) in
      let end_page := match end_page with None => total_pages | Some e => e end in
      let out1 := [OpeningPDF pdf_path; PDFHasPages total_pages;
                   ProcessingPages (start_page + 1) (Z.min end_page total_pages)] in
      match process_pages doc total_pages
              (py_range start_page (Z.min end_page total_pages)) with
      | (inl e, out2) => (Raises e, {| stdout := out1 ++ out2; written := [] |})
      | (inr results, out2) =>
          let df := pd_DataFrame results in
          let out3 := [SavingResults output_excel_path;
                       ExtractionComplete (length (records df))] in
          let files := [(output_excel_path, df)] in
          match count_nonempty df ColName Name with
          | None =>
              (Raises (KeyError ColName),
               {| stdout := out1 ++ out2 ++ out3; written := files |})
          | Some valid_names =>
              match count_nonempty df ColPasskey Passkey with
              | None =>
                  (Raises (KeyError ColPasskey),
                   {| stdout := out1 ++ out2 ++ out3; written := files |})
              | Some valid_passkeys =>
                  (Returns (Some df),
                   {| stdout := out1 ++ out2 ++ out3 ++
                                [Summary valid_names valid_passkeys];
                      written := files |})
              end
          end
      end
  end.

End Batch.

(** ** The rules as the specification words them *)

(** [a < b] on numbers. *)
Definition less (a b : float) : Prop := (a <? b)%float = true.

(** A number that is one: not NaN. *)
Definition is_number (a : float) : Prop := is_nan a = false.

(** [a <= b], for "top to bottom". *)
Definition at_most (a b : float) : Prop := (a <=? b)%float = true.

(** [l] is [before ++ a :: _] with [a] the first element that has [P]. *)
Definition FirstWith {A : Type} (P : A -> Prop) (l : list A) (a : A) : Prop :=
  exists before after,
    l = before ++ a :: after /\ P a /\ Forall (fun b => ~ P b) before.

(** [w] occurs in [s]. *)
Definition Substring (w s : pystr) : Prop :=
  exists before after, s = before ++ w ++ after.

Section Rules.
Variable db : PyStr.ucd.
Variables W H : float.

(** A letter, a space, a period: the three kinds of character the name
    pattern lets through (a letter is one of A-Z, a-z; a space is a
    whitespace character). *)
Definition letter (c : PyStr.char) : Prop :=
  (65 <= c <= 90)%N \/ (97 <= c <= 122)%N.
Definition space (c : PyStr.char) : Prop := PyStr.isspace db c = true.
Definition period (c : PyStr.char) : Prop := c = 46%N.

(** The name rule: all six conditions. *)
Definition NameRule (it : item) : Prop :=
  less 15 (Item.font_size it) /\
  (less (W * 0.2) (Item.x it) /\ less (Item.x it) (W * 0.8)) /\
  (less (H * 0.3) (Item.y it) /\ less (Item.y it) (H * 0.6)) /\
  Forall (fun c => letter c \/ space c \/ period c) (Item.text it) /\
  5 < length (Item.text it) /\
  (forall skip, In skip blocklist ->
     ~ Substring skip (PyStr.lower db (Item.text it))).

(** The name a fragment list resolves to. *)
Definition NameResult (items : list item) (name : pystr) : Prop :=
  (exists it, FirstWith NameRule items it /\ name = Item.text it) \/
  (Forall (fun it => ~ NameRule it) items /\ name = []).

(** An uppercase letter or a digit. *)
Definition upper_or_digit (c : PyStr.char) : Prop :=
  (65 <= c <= 90)%N \/ (48 <= c <= 57)%N.

(** The string edge, or a character outside the class [inside] (given as
    the characters that continue a token). *)
Definition edge_or_outside (inside : PyStr.char -> bool) (o : option PyStr.char)
  : Prop :=
  match o with
  | None => True
  | Some c => inside c = false
  end.

(** [s = before ++ tok ++ after] with [tok] a whole token: 6 to 12
    uppercase letters and digits, bounded on each side by the string edge or
    by a character that does not continue a token. *)
Definition TokenAt (inside : PyStr.char -> bool) (s before tok after : pystr)
  : Prop :=
  s = before ++ tok ++ after /\
  6 <= length tok <= 12 /\
  Forall upper_or_digit tok /\
  edge_or_outside inside (hd_error (rev before)) /\
  edge_or_outside inside (hd_error after).

Definition HasToken (inside : PyStr.char -> bool) (s : pystr) : Prop :=
  exists before tok after, TokenAt inside s before tok after.

(** The first (leftmost) whole token of [s]. *)
Definition FirstToken (inside : PyStr.char -> bool) (s tok : pystr) : Prop :=
  exists before after,
    TokenAt inside s before tok after /\
    forall before' tok' after',
      TokenAt inside s before' tok' after' -> length before <= length before'.

(** The bottom right area of the passkey rule. *)
Definition PasskeyArea (it : item) : Prop :=
  less (W * 0.7) (Item.x it) /\ less (H * 0.8) (Item.y it).

(** A fragment the passkey rule stops at. *)
Definition PasskeyRule (inside : PyStr.char -> bool) (it : item) : Prop :=
  PasskeyArea it /\ HasToken inside (Item.text it).

(** The passkey a fragment list resolves to. *)
Definition PasskeyResult (inside : PyStr.char -> bool) (items : list item)
  (passkey : pystr) : Prop :=
  (exists it, FirstWith (PasskeyRule inside) items it /\
              FirstToken inside (Item.text it) passkey) \/
  (Forall (fun it => ~ PasskeyRule inside it) items /\ passkey = []).

End Rules.

(** The spans of a page in the order the renderer reports them: block by
    block, line by line, span by span. *)
Definition page_spans (p : page) : list span :=
  flat_map (fun b => match block_lines b with
                     | Some ls => flat_map line_spans ls
                     | None => []
                     end) (page_blocks p).

(** A text that is empty or only whitespace. *)
Definition blank (db : PyStr.ucd) (s : pystr) : bool := forallb (PyStr.isspace db) s.

(** The fragment of a span: stripped text, top left corner, extent, size. *)
Definition fragment_of (db : PyStr.ucd) (s : span) : item :=
  let '(x0, y0, x1, y1) := span_bbox s in
  Item.mk (PyStr.strip db (span_text s)) x0 y0 (x1 - x0) (y1 - y0)
    (match span_size s with Some sz => sz | None => 0 end).

(** The fragments of a page in extraction order, blank ones dropped. *)
Definition fragments (db : PyStr.ucd) (p : page) : list item :=
  map (fragment_of db) (filter (fun s => negb (blank db (span_text s))) (page_spans p)).

(** Same [y]. *)
Definition same_y (k : float) (it : item) : bool := (Item.y it =? k)%float.

(** ** Sample pages *)

Module Sample.

(** US Letter, in points. *)
Definition W : float := 612.
Definition H : float := 792.

Definition john : item :=
  Item.mk (py "John Michael Dela Cruz") (0.4 * W) (0.4 * H) 210 22 18.
Definition maria : item :=
  Item.mk (py "Maria Santos") (0.4 * W) (0.35 * H) 120 22 18.
Definition heading : item :=
  Item.mk (py "Bachelor of Science") (0.4 * W) (0.35 * H) 180 24 20.
Definition code : item :=
  Item.mk (py "CODE: AB12CD34") (0.85 * W) (0.9 * H) 80 10 9.
Definition tagged_code : item :=
  Item.mk (py "ID_AB12CD34") (0.85 * W) (0.9 * H) 80 10 9.
Definition hello : item :=
  Item.mk (py "hello world") (0.85 * W) (0.9 * H) 60 10 9.

Definition mkspan (s : string) (x0 y0 x1 y1 size : float) : span :=
  {| span_text := py s; span_bbox := (x0, y0, x1, y1); span_size := Some size |}.

(** A page with a heading, a name, a blank span and a code; the renderer
    reports the code block first. *)
Definition diploma : page :=
  {| page_blocks :=
       [ {| block_lines := Some [ {| line_spans :=
              [mkspan "CODE: AB12CD34" 520 713 600 723 9] |} ] |};
         {| block_lines := None |};
         {| block_lines := Some [ {| line_spans :=
              [mkspan "  Bachelor of Science " 245 277 425 301 20;
               mkspan "   " 430 277 440 301 20] |};
                                  {| line_spans :=
              [mkspan "John Michael Dela Cruz" 245 317 455 339 18;
               mkspan "Class of 2024" 460 317 520 339 18] |} ] |} ];
     rect_width := W;
     rect_height := H |}.

End Sample.

(** ** The order of the numbers, for the proofs *)

(** Every number has a place in [Z * Z * Z] ordered lexicographically:
    first its kind (negative infinity, negative, zero, positive, positive
    infinity), then exponent and mantissa (negated for the negative ones).
    [SFcompare] is the comparison of the places. *)
Definition place (f : spec_float) : Z * Z * Z :=
  match f with
  | S754_nan => (0, 0, 0)
  | S754_zero _ => (0, 0, 0)
  | S754_infinity true => (-2, 0, 0)
  | S754_infinity false => (2, 0, 0)
  | S754_finite true m e => (-1, - e, - Z.pos m)
  | S754_finite false m e => (1, e, Z.pos m)
  end%Z.

Definition lex_lt (p q : Z * Z * Z) : Prop :=
  let '(a, b, c) := p in
  let '(a', b', c') := q in
  (a < a' \/ (a = a' /\ (b < b' \/ (b = b' /\ c < c'))))%Z.

(** Every [y] of the list is a number. *)
Definition numeric_y (items : list item) : Prop :=
  Forall (fun it => is_number (Item.y it)) items.

(** Top to bottom. *)
Definition top_to_bottom (items : list item) : Prop :=
  StronglySorted (fun a b => at_most (Item.y a) (Item.y b)) items.

(** ** Tokens in context, for the proofs *)

(** The character left of a position that has [before] to its left: the last
    one of [before], or the character [ctx] that precedes the whole text. *)
Definition left_of (ctx : option PyStr.char) (before : pystr) : option PyStr.char :=
  match hd_error (rev before) with
  | Some c => Some c
  | None => ctx
  end.

(** [TokenAt] for a text that continues another one ending in [ctx], with
    word characters as the characters that continue a token. *)
Definition TokenIn (db : PyStr.ucd) (ctx : option PyStr.char)
  (s before tok after : pystr) : Prop :=
  s = before ++ tok ++ after /\
  6 <= length tok <= 12 /\
  forallb PyStr.passkey_class tok = true /\
  PyStr.word_at db (left_of ctx before) = false /\
  PyStr.word_at db (hd_error after) = false.

(** ** Words of two claims *)

(** A fragment whose lower-cased text contains a blocklist entry. *)
Definition blocklisted (db : PyStr.ucd) (it : item) : Prop :=
  exists skip, In skip blocklist /\ Substring skip (PyStr.lower db (Item.text it)).

(** The point the example fragment sits at lies inside the name area. *)
Definition example_point_in_name_area (W H : float) : Prop :=
  (less (W * 0.2) (0.4 * W) /\ less (0.4 * W) (W * 0.8)) /\
  (less (H * 0.3) (0.4 * H) /\ less (0.4 * H) (H * 0.6)).

(** ** The name rule in the specification's own terms *)

(** The seven words of the blocklist, as the specification lists them. *)
Definition listed_words : list pystr :=
  [py "bachelor"; py "science"; py "hospitality"; py "management";
   py "philippines"; py "manila"; py "greetings"].

(** A text lower-cased: each of A to Z becomes the letter 32 code points up,
    every other character stays (the texts the rule looks at hold letters A
    to Z and a to z, whitespace and periods). *)
Definition lower_cased (s : pystr) : pystr :=
  map (fun c => if ((65 <=? c) && (c <=? 90))%N then (c + 32)%N else c) s.

(** The blank, U+0020. *)
Definition blank_space (c : PyStr.char) : Prop := c = 32%N.

(** The name rule, for a reading [is_letter] of "letter" and [is_space] of
    "space": the six conditions, every constant and word written out. *)
Definition NameRuleOf (is_letter is_space : PyStr.char -> Prop)
  (W H : float) (it : item) : Prop :=
  less 15 (Item.font_size it) /\
  (less (W * 0.2) (Item.x it) /\ less (Item.x it) (W * 0.8)) /\
  (less (H * 0.3) (Item.y it) /\ less (Item.y it) (H * 0.6)) /\
  Forall (fun c => is_letter c \/ is_space c \/ c = 46%N) (Item.text it) /\
  5 < length (Item.text it) /\
  (forall word, In word listed_words ->
     ~ Substring word (lower_cased (Item.text it))).

(** The name a fragment list resolves to under that rule. *)
Definition NameResultOf (is_letter is_space : PyStr.char -> Prop)
  (W H : float) (items : list item) (name : pystr) : Prop :=
  (exists it, FirstWith (NameRuleOf is_letter is_space W H) items it /\
              name = Item.text it) \/
  (Forall (fun it => ~ NameRuleOf is_letter is_space W H it) items /\ name = []).

(** What the model asks of the character database for this rule: on a text
    of ASCII characters and whitespace that is not all ASCII, [str.lower]
    lowers A to Z and leaves every other character (whitespace has no
    case). *)
Definition lower_leaves_whitespace (db : PyStr.ucd) : Prop :=
  forall s,
    forallb PyStr.is_ascii s = false ->
    Forall (fun c => PyStr.is_ascii c = true \/ PyStr.isspace db c = true) s ->
    PyStr.ucd_lower db s = lower_cased s.

(** A database that knows the no-break space U+00A0 and the letters of the
    Latin-1 block with their lower case. *)
Definition ucd_latin1 : PyStr.ucd :=
  {| PyStr.ucd_isspace := fun c => (c =? 160)%N || (c =? 133)%N;
     PyStr.ucd_isalnum := fun c =>
       PyStr.in_range 192%N 255%N c && negb (c =? 215)%N && negb (c =? 247)%N;
     PyStr.ucd_lower :=
       map (fun c => if PyStr.is_AZ c
                        || (PyStr.in_range 192%N 222%N c && negb (c =? 215)%N)
                     then (c + 32)%N else c) |}.

(** Two fragments in the name area, in large type: one with a tab between
    the words, one with a letter outside A to Z. *)
Definition tabbed_name : item :=
  Item.mk (py "Juan" ++ [9%N] ++ py "Dela Cruz")
          (0.4 * Sample.W) (0.4 * Sample.H) 150 22 18.
Definition accented_name : item :=
  Item.mk (py "Juan Dela Pe" ++ [241%N] ++ py "a")
          (0.4 * Sample.W) (0.4 * Sample.H) 150 22 18.
Definition nbsp_name : item :=
  Item.mk (py "Juan" ++ [160%N] ++ py "Dela Cruz")
          (0.4 * Sample.W) (0.4 * Sample.H) 150 22 18.

(** ** The two loops as a machine *)

(** Lines 43-69 step by step. The state holds the list object
    [all_text_items], the variables [name] and [passkey], and the place in
    the code: inside the name loop or the passkey loop with the items still
    to come, or at the [return]. *)
Module Matcher.

Inductive place :=
| NameLoop (rest : list item)
| PasskeyLoop (rest : list item)
| Returned.

Record state := mk {
  all_text_items : list item;
  name : pystr;
  passkey : pystr;
  at_ : place
}.

(** Lines 13-14 and 43: both variables empty, the name loop at the first
    item. *)
Definition start (items : list item) : state :=
  mk items [] [] (NameLoop items).

Section Steps.
Variable db : PyStr.ucd.
Variables page_width page_height : float.

Inductive step : state -> state -> Prop :=
| name_break (l : list item) (n k : pystr) (it : item) (rest : list item) :
    is_name_candidate db page_width page_height it = true ->
    step (mk l n k (NameLoop (it :: rest)))
         (mk l (Item.text it) k (PasskeyLoop l))
| name_next (l : list item) (n k : pystr) (it : item) (rest : list item) :
    is_name_candidate db page_width page_height it = false ->
    step (mk l n k (NameLoop (it :: rest))) (mk l n k (NameLoop rest))
| name_exhausted (l : list item) (n k : pystr) :
    step (mk l n k (NameLoop [])) (mk l n k (PasskeyLoop l))
| passkey_break (l : list item) (n k : pystr) (it : item) (rest : list item)
    (m : pystr) (ms : list pystr) :
    in_passkey_area page_width page_height it = true ->
    PyStr.re_findall_passkey db (Item.text it) = m :: ms ->
    step (mk l n k (PasskeyLoop (it :: rest))) (mk l n m Returned)
| passkey_no_match (l : list item) (n k : pystr) (it : item) (rest : list item) :
    in_passkey_area page_width page_height it = true ->
    PyStr.re_findall_passkey db (Item.text it) = [] ->
    step (mk l n k (PasskeyLoop (it :: rest))) (mk l n k (PasskeyLoop rest))
| passkey_next (l : list item) (n k : pystr) (it : item) (rest : list item) :
    in_passkey_area page_width page_height it = false ->
    step (mk l n k (PasskeyLoop (it :: rest))) (mk l n k (PasskeyLoop rest))
| passkey_exhausted (l : list item) (n k : pystr) :
    step (mk l n k (PasskeyLoop [])) (mk l n k Returned).

(** Any number of steps. *)
Inductive steps : state -> state -> Prop :=
| steps_none (s : state) : steps s s
| steps_more (s s' s'' : state) : step s s' -> steps s' s'' -> steps s s''.

(** A run of the matcher on [items]: from the start to the [return]. *)
Definition run (items : list item) (final : state) : Prop :=
  steps (start items) final /\ at_ final = Returned.

End Steps.

End Matcher.

(** ** Further words, for the properties beyond the claims *)

(** No two fragments of the list are at the same height. *)
Definition distinct_y (items : list item) : Prop :=
  forall k, length (filter (same_y k) items) <= 1.

(** [Sample.diploma] with its blocks reported in another order. *)
Definition shuffled_page (p : page) : page :=
  {| page_blocks := rev (page_blocks p);
     rect_width := rect_width p;
     rect_height := rect_height p |}.

(** A page with a heading, a name and a code at three different heights. *)
Definition plain_diploma : page :=
  {| page_blocks :=
       [ {| block_lines := Some [ {| line_spans :=
              [Sample.mkspan "CODE: AB12CD34" 520 713 600 723 9] |} ] |};
         {| block_lines := Some [ {| line_spans :=
              [Sample.mkspan "Bachelor of Science" 245 277 425 301 20] |};
                                  {| line_spans :=
              [Sample.mkspan "John Michael Dela Cruz" 245 317 455 339 18] |} ] |} ];
     rect_width := Sample.W;
     rect_height := Sample.H |}.

(** A page that holds an image block and a line of whitespace spans. *)
Definition blank_page : page :=
  {| page_blocks :=
       [ {| block_lines := None |};
         {| block_lines := Some [ {| line_spans :=
              [Sample.mkspan "   " 72 72 90 84 12;
               Sample.mkspan "" 90 72 90 84 12] |} ] |} ];
     rect_width := Sample.W;
     rect_height := Sample.H |}.

(** The row the batch loop appends for page number [i] (0-based) of [doc],
    if [doc] has such a page. *)
Definition page_row (db : PyStr.ucd) (doc : document) (i : Z) : option row :=
  match nth_error doc (Z.to_nat i) with
  | Some page =>
      Some {| Page := i + 1;
              Name := fst (extract_name_and_passkey_improved db page);
              Passkey := snd (extract_name_and_passkey_improved db page) |}
  | None => None
  end.

(** A document of three sample pages. *)
Definition three_pages : document :=
  [Sample.diploma; blank_page; plain_diploma].

(** ** [preview_page_text] *)

(** An entry of [all_items]: text, position and font size only. *)
Module PreviewItem.
Record t := mk {
  text : pystr;
  x : float;
  y : float;
  font_size : float
}.
End PreviewItem.

(** [l.sort(key=...)] for any list and numeric key, as [sort_by_y] is for
    [all_text_items]. *)
Fixpoint insert_by {A : Type} (key : A -> float) (a : A) (sorted : list A) : list A :=
  match sorted with
  | [] => [a]
  | e :: rest =>
      if (key e <? key a)%float
      then e :: insert_by key a rest
      else a :: e :: rest
  end.
Definition sort_by {A : Type} (key : A -> float) (l : list A) : list A :=
  fold_right (insert_by key) [] l.

(** The lines [preview_page_text] prints. An item line carries the values
    the format string lays out: y, x, size and text. *)
Inductive preview_printed :=
| PagePreview (number : Z)
| PageDimensions (width height : float)
| AllTextItems
| ItemLine (y x size : float) (text : pystr)
| ExtractedName (name : pystr)
| ExtractedPasskey (passkey : pystr).

(** The exceptions that leave [preview_page_text] and [main]. *)
Inductive escaped :=
| OpenFailed (e : pystr)          (* whatever [fitz.open] raised *)
| Lookup (e : exception)          (* [IndexError] of [doc[i]], [KeyError] of [df[c]] *)
| EOFError.                       (* [input()] at the end of the input *)

(** How [preview_page_text] and [main] end: they return [None], or an
    exception leaves them. *)
Inductive ending :=
| Done
| Escapes (e : escaped).

Section Preview.
Variable db : PyStr.ucd.

(** Lines 88-97. *)
Definition preview_span_item (s : span) : option PreviewItem.t :=
  let text_content := PyStr.strip db (span_text s) in
  match text_content with
  | [] => None
  | _ :: _ =>
      let '(x0, y0, _, _) := span_bbox s in
      Some (PreviewItem.mk text_content x0 y0
              (match span_size s with Some sz => sz | None => 0 end))
  end.

(** Lines 85-97. *)
Definition preview_line_items (l : line) : list PreviewItem.t :=
  flat_map (fun s => match preview_span_item s with Some it => [it] | None => [] end)
           (line_spans l).
Definition preview_block_items (b : block) : list PreviewItem.t :=
  match block_lines b with
  | Some ls => flat_map preview_line_items ls
  | None => []
  end.
Definition collect_preview_items (blocks : list block) : list PreviewItem.t :=
  flat_map preview_block_items blocks.

Definition item_line (it : PreviewItem.t) : preview_printed :=
  ItemLine (PreviewItem.y it) (PreviewItem.x it) (PreviewItem.font_size it)
           (PreviewItem.text it).

(** Lines 71-111. [fitz_open] is the result of [fitz.open(pdf_path)]; the
    second component is what was printed, the third whether [doc.close()]
    was reached. *)
Definition preview_page_text (fitz_open : opened) (page_num : Z)
  : ending * list preview_printed * bool :=
  match fitz_open with
  | OpenError e => (Escapes (OpenFailed e), [], false)
  | Opened doc =>
      match doc_getitem doc page_num with
      | None => (Escapes (Lookup (PageNotInDocument page_num)), [], false)
      | Some page =>
          let all_items :=
            sort_by PreviewItem.y (collect_preview_items (page_blocks page)) in
          let '(name, passkey) := extract_name_and_passkey_improved db page in
          (Done,
           [PagePreview (page_num + 1);
            PageDimensions (rect_width page) (rect_height page);
            AllTextItems]
           ++ map item_line all_items
           ++ [ExtractedName name; ExtractedPasskey passkey],
           true)
      end
  end.

End Preview.

(** ** [main] *)

From Stdlib Require DecimalString.

(** [str(n)] for an [int], as an f-string lays it out. *)
Definition str_of_int (n : Z) : pystr :=
  py (DecimalString.NilZero.string_of_int (Z.to_int n)).

(** [a == b] on strings. *)
Fixpoint str_eqb (a b : pystr) : bool :=
  match a, b with
  | [], [] => true
  | c :: a', d :: b' => (c =? d)%N && str_eqb a' b'
  | _, _ => false
  end.

(** [results.head(n)] *)
Definition df_head (n : nat) (df : DataFrame) : DataFrame :=
  {| columns := columns df; records := firstn n (records df) |}.

(** What [main] writes to the terminal: its own lines, the prompts of
    [input], and the lines of the functions it calls. *)
Inductive main_printed :=
| Banner
| BannerRule
| FileNotFound (pdf_path : pystr)
| PleaseUpdate
| PathExample
| ChooseAnOption
| MenuPreview
| MenuFirstFive
| MenuAll
| MenuCustom
| Prompt (text : pystr)
| FromPreview (l : preview_printed)
| FromBatch (l : printed)
| FirstFiveResults
| FirstTenResults
| ResultsForPages (first last : Z)
| PrintFrame (df : DataFrame)
| InvalidPageNumbers
| InvalidChoice.

Record main_effects := {
  console : list main_printed;
  files : list (pystr * DataFrame)
}.

Section Main.
Variable db : PyStr.ucd.

(** [int(s)] on a string: the integer, or [None] for [ValueError]. The
    builtin's parsing is not part of the scanner and is taken as given. *)
Variable py_int : pystr -> option Z.

(** A call of [scan_pdf_batch] inside [main], and what follows it: the
    heading and the frame are printed unless the call returned [None]. *)
Definition call_scan (fitz_open : opened) (pdf_path output_excel_path : pystr)
  (start_page end_page : Z) (heading : main_printed)
  (show : DataFrame -> DataFrame) (printed_before : list main_printed)
  : ending * main_effects :=
  let '(out, eff) := scan_pdf_batch db fitz_open pdf_path output_excel_path
                       start_page (Some end_page) in
  let shown := printed_before ++ map FromBatch (stdout eff) in
  match out with
  | Raises e => (Escapes (Lookup e), {| console := shown; files := written eff |})
  | Returns None => (Done, {| console := shown; files := written eff |})
  | Returns (Some results) =>
      (Done, {| console := shown ++ [heading; PrintFrame (show results)];
                files := written eff |})
  end.

(** Lines 170-224. [path_exists] is [os.path.exists(pdf_path)], [fitz_open]
    what [fitz.open(pdf_path)] does, [inputs] the lines the operator
    types. *)
Definition main (path_exists : bool) (fitz_open : opened) (inputs : list pystr)
  : ending * main_effects :=
  let pdf_path := py "BSHM.pdf" in
  let output_excel_path := py "extracted_names_passkeys.xlsx" in
  if negb path_exists then
    (Done, {| console := [Banner; BannerRule; FileNotFound pdf_path;
                          PleaseUpdate; PathExample];
              files := [] |})
  else
    let menu := [Banner; BannerRule; ChooseAnOption; MenuPreview; MenuFirstFive;
                 MenuAll; MenuCustom; Prompt (py "Enter your choice (1-4): ")] in
    match inputs with
    | [] => (Escapes EOFError, {| console := menu; files := [] |})
    | line1 :: inputs1 =>
        let choice := PyStr.strip db line1 in
        if str_eqb choice (py "1") then
          let '(out, lines, _) := preview_page_text db fitz_open 0 in
          (out, {| console := menu ++ map FromPreview lines; files := [] |})
        else if str_eqb choice (py "2") then
          call_scan fitz_open pdf_path (py "test_5_pages.xlsx") 0 5
            FirstFiveResults (fun df => df) menu
        else if str_eqb choice (py "3") then
          call_scan fitz_open pdf_path output_excel_path 0 273
            FirstTenResults (df_head 10) menu
        else if str_eqb choice (py "4") then
          let ask_start := menu ++ [Prompt (py "Start page (1-based): ")] in
          match inputs1 with
          | [] => (Escapes EOFError, {| console := ask_start; files := [] |})
          | line2 :: inputs2 =>
              match py_int line2 with
              | None => (Done, {| console := ask_start ++ [InvalidPageNumbers];
                                  files := [] |})
              | Some n =>
                  let start := (n - 1)%Z in
                  let ask_end := ask_start ++ [Prompt (py "End page (1-based): ")] in
                  match inputs2 with
                  | [] => (Escapes EOFError, {| console := ask_end; files := [] |})
                  | line3 :: _ =>
                      match py_int line3 with
                      | None => (Done, {| console := ask_end ++ [InvalidPageNumbers];
                                          files := [] |})
                      | Some end_ =>
                          let custom_output :=
                            py "extracted_pages_" ++ str_of_int (start + 1) ++
                            py "_to_" ++ str_of_int end_ ++ py ".xlsx" in
                          call_scan fitz_open pdf_path custom_output start end_
                            (ResultsForPages (start + 1) end_) (fun df => df) ask_end
                      end
                  end
              end
          end
        else
          (Done, {| console := menu ++ [InvalidChoice]; files := [] |})
    end.

End Main.

(** A reader of decimal digits, to run the examples: [int] on a string of
    ASCII digits. *)
Fixpoint digits_value (acc : Z) (s : pystr) : option Z :=
  match s with
  | [] => Some acc
  | c :: s' =>
      if PyStr.is_09 c
      then digits_value (10 * acc + Z.of_N (c - 48)) s'
      else None
  end.
Definition int_of_digits (s : pystr) : option Z :=
  match s with
  | [] => None
  | _ :: _ => digits_value 0 s
  end.

(** The part of a fragment that the preview keeps. *)
Definition preview_of (it : item) : PreviewItem.t :=
  PreviewItem.mk (Item.text it) (Item.x it) (Item.y it) (Item.font_size it).

(** The line the preview prints for a fragment. *)
Definition fragment_line (it : item) : preview_printed :=
  ItemLine (Item.y it) (Item.x it) (Item.font_size it) (Item.text it).
(* ================================================================== *)
(** * Part II: lemmas and theorems                                     *)
(* ================================================================== *)

(** ** Numbers: [<] is a strict weak order away from NaN *)

Lemma SFltb_place (f g : spec_float) :
  f <> S754_nan -> g <> S754_nan ->
  (SFltb f g = true <-> lex_lt (place f) (place g)).
Proof.
  intros Hf Hg.
  destruct f as [sf | sf | | sf mf ef], g as [sg | sg | | sg mg eg];
    try congruence; try destruct sf; try destruct sg;
    unfold SFltb; cbn [SFcompare place lex_lt];
    try (split; [discriminate | lia]); try (split; [reflexivity | lia]);
    try (split; [lia | reflexivity]).
  all: change (Pos.compare_cont Eq mf mg) with (Pos.compare mf mg).
  all: destruct (Z.compare_spec ef eg); destruct (Pos.compare_spec mf mg);
    cbn; split; intros; try discriminate; try reflexivity; try lia.
Qed.

Lemma SFeqb_place (f g : spec_float) :
  f <> S754_nan -> g <> S754_nan ->
  (SFeqb f g = true <-> place f = place g).
Proof.
  intros Hf Hg.
  destruct f as [sf | sf | | sf mf ef], g as [sg | sg | | sg mg eg];
    try congruence; try destruct sf; try destruct sg;
    unfold SFeqb; cbn [SFcompare place];
    try (split; [discriminate | intros E; inversion E]);
    try (split; reflexivity).
  all: change (Pos.compare_cont Eq mf mg) with (Pos.compare mf mg).
  all: destruct (Z.compare_spec ef eg); destruct (Pos.compare_spec mf mg);
    cbn; split; intros E; try discriminate; try reflexivity;
    try (inversion E; lia); try (f_equal; f_equal; lia).
Qed.

Lemma SFeqb_nan_l (g : spec_float) : SFeqb S754_nan g = false.
Proof. reflexivity. Qed.

Lemma SFeqb_nan_r (f : spec_float) : SFeqb f S754_nan = false.
Proof. destruct f as [ | | | [] ]; reflexivity. Qed.

Lemma SFeqb_refl_iff (f : spec_float) : SFeqb f f = true <-> f <> S754_nan.
Proof.
  split.
  - intros E ->. discriminate.
  - intros Hf. apply SFeqb_place; auto.
Qed.

Lemma SFleb_place (f g : spec_float) :
  f <> S754_nan -> g <> S754_nan ->
  (SFleb f g = true <-> ~ lex_lt (place g) (place f)).
Proof.
  intros Hf Hg.
  destruct f as [sf | sf | | sf mf ef], g as [sg | sg | | sg mg eg];
    try congruence; try destruct sf; try destruct sg;
    unfold SFleb; cbn [SFcompare place lex_lt];
    try (split; [discriminate | lia]); try (split; [reflexivity | lia]);
    try (split; [lia | reflexivity]).
  all: change (Pos.compare_cont Eq mf mg) with (Pos.compare mf mg).
  all: destruct (Z.compare_spec ef eg); destruct (Pos.compare_spec mf mg);
    cbn; split; intros; try discriminate; try reflexivity; try lia.
Qed.

Lemma is_number_SF (a : float) : is_number a <-> Prim2SF a <> S754_nan.
Proof.
  unfold is_number, is_nan. rewrite eqb_spec, negb_false_iff.
  apply SFeqb_refl_iff.
Qed.

Lemma lex_lt_irrefl (p : Z * Z * Z) : ~ lex_lt p p.
Proof. destruct p as [[a b] c]. cbn. lia. Qed.

Lemma lex_lt_asym (p q : Z * Z * Z) : lex_lt p q -> ~ lex_lt q p.
Proof. destruct p as [[a b] c], q as [[a' b'] c']. cbn. lia. Qed.

Lemma lex_ge_trans (p q r : Z * Z * Z) :
  ~ lex_lt p q -> ~ lex_lt q r -> ~ lex_lt p r.
Proof.
  destruct p as [[a b] c], q as [[a' b'] c'], r as [[a'' b''] c''].
  cbn. lia.
Qed.

(** [a < b] as places; no NaN needed for the left-to-right direction. *)
Lemma ltb_true_place (a b : float) :
  (a <? b)%float = true ->
  is_number a /\ is_number b /\
  lex_lt (place (Prim2SF a)) (place (Prim2SF b)).
Proof.
  rewrite ltb_spec. intros E.
  assert (Ha : Prim2SF a <> S754_nan) by (intros N; rewrite N in E; discriminate).
  assert (Hb : Prim2SF b <> S754_nan).
  { intros N; rewrite N in E. unfold SFltb in E.
    destruct (Prim2SF a) as [ | | | [] ]; discriminate. }
  repeat split; try (apply is_number_SF; assumption).
  apply SFltb_place; assumption.
Qed.

Lemma ltb_false_place (a b : float) :
  is_number a -> is_number b ->
  (a <? b)%float = false ->
  ~ lex_lt (place (Prim2SF a)) (place (Prim2SF b)).
Proof.
  intros Ha%is_number_SF Hb%is_number_SF E L.
  apply SFltb_place in L; auto. rewrite <- ltb_spec in L. congruence.
Qed.

Lemma ltb_irrefl (a : float) : (a <? a)%float = false.
Proof.
  destruct (a <? a)%float eqn:E; [ | reflexivity].
  apply ltb_true_place in E. destruct E as (_ & _ & L).
  now apply lex_lt_irrefl in L.
Qed.

(** Not below, twice, is not below. *)
Lemma ltb_false_trans (a b c : float) :
  is_number a -> is_number b -> is_number c ->
  (a <? b)%float = false -> (b <? c)%float = false -> (a <? c)%float = false.
Proof.
  intros Ha Hb Hc E1 E2.
  destruct (a <? c)%float eqn:E; [ | reflexivity].
  apply ltb_true_place in E. destruct E as (_ & _ & L).
  exfalso. revert L. apply (lex_ge_trans _ (place (Prim2SF b)));
    apply ltb_false_place; assumption.
Qed.

(** Not above is at most. *)
Lemma leb_of_not_ltb (a b : float) :
  is_number a -> is_number b ->
  (b <? a)%float = false -> at_most a b.
Proof.
  intros Ha Hb E. unfold at_most. rewrite leb_spec.
  apply SFleb_place; try (apply is_number_SF; assumption).
  apply ltb_false_place; assumption.
Qed.

Lemma ltb_leb (a b : float) : (a <? b)%float = true -> at_most a b.
Proof.
  intros E. apply ltb_true_place in E. destruct E as (Ha & Hb & L).
  unfold at_most. rewrite leb_spec.
  apply SFleb_place; try (apply is_number_SF; assumption).
  now apply lex_lt_asym.
Qed.

(** Two numbers equal to a third one are not below one another. *)
Lemma eqb_not_ltb (a b k : float) :
  (a =? k)%float = true -> (b =? k)%float = true -> (a <? b)%float = false.
Proof.
  rewrite !eqb_spec. intros E1 E2.
  destruct (a <? b)%float eqn:E; [ | reflexivity].
  apply ltb_true_place in E. destruct E as (Ha%is_number_SF & Hb%is_number_SF & L).
  assert (Hk : Prim2SF k <> S754_nan).
  { intros N. rewrite N, SFeqb_nan_r in E1. discriminate. }
  apply SFeqb_place in E1; auto. apply SFeqb_place in E2; auto.
  rewrite E1, E2 in L. now apply lex_lt_irrefl in L.
Qed.

Lemma leb_true_place (a b : float) :
  at_most a b ->
  is_number a /\ is_number b /\
  ~ lex_lt (place (Prim2SF b)) (place (Prim2SF a)).
Proof.
  unfold at_most. rewrite leb_spec. intros E.
  assert (Ha : Prim2SF a <> S754_nan) by (intros N; rewrite N in E; discriminate).
  assert (Hb : Prim2SF b <> S754_nan).
  { intros N; rewrite N in E. unfold SFleb in E.
    destruct (Prim2SF a) as [ | | | [] ]; discriminate. }
  repeat split; try (apply is_number_SF; assumption).
  apply SFleb_place; assumption.
Qed.

Lemma at_most_trans (a b c : float) : at_most a b -> at_most b c -> at_most a c.
Proof.
  intros (Ha & Hb & L1)%leb_true_place (_ & Hc & L2)%leb_true_place.
  unfold at_most. rewrite leb_spec.
  apply SFleb_place; try (apply is_number_SF; assumption).
  apply (lex_ge_trans _ (place (Prim2SF b))); assumption.
Qed.

Lemma at_most_not_ltb (a b : float) : at_most a b -> (b <? a)%float = false.
Proof.
  intros (Ha & Hb & L)%leb_true_place.
  destruct (b <? a)%float eqn:E; [ | reflexivity].
  apply ltb_true_place in E. tauto.
Qed.

(** ** The sort *)

Lemma insert_by_y_perm (it : item) (l : list item) :
  Permutation (insert_by_y it l) (it :: l).
Proof.
  induction l as [ | e rest IH]; cbn.
  - apply Permutation_refl.
  - destruct (Item.y e <? Item.y it)%float.
    + rewrite IH. apply perm_swap.
    + apply Permutation_refl.
Qed.

Lemma sort_by_y_cons (it : item) (l : list item) :
  sort_by_y (it :: l) = insert_by_y it (sort_by_y l).
Proof. reflexivity. Qed.

Lemma sort_by_y_perm (l : list item) : Permutation (sort_by_y l) l.
Proof.
  induction l as [ | it l IH]; [constructor | ].
  rewrite sort_by_y_cons, insert_by_y_perm. now constructor.
Qed.

Lemma numeric_y_perm (l l' : list item) :
  Permutation l l' -> numeric_y l -> numeric_y l'.
Proof. intros P. unfold numeric_y. now rewrite P. Qed.

Lemma insert_by_y_sorted (it : item) (l : list item) :
  is_number (Item.y it) -> numeric_y l ->
  top_to_bottom l -> top_to_bottom (insert_by_y it l).
Proof.
  intros Hit Hl S. induction S as [ | e rest S IH F]; cbn.
  - repeat constructor.
  - inversion Hl as [ | ? ? He Hrest]; subst.
    destruct (Item.y e <? Item.y it)%float eqn:E.
    + constructor; [now apply IH | ].
      rewrite insert_by_y_perm. constructor; [ | assumption].
      now apply ltb_leb.
    + assert (L : at_most (Item.y it) (Item.y e)) by now apply leb_of_not_ltb.
      constructor; [now constructor | ].
      constructor; [assumption | ].
      revert F. apply Forall_impl. intros b. now apply at_most_trans.
Qed.

Lemma sort_by_y_sorted (l : list item) :
  numeric_y l -> top_to_bottom (sort_by_y l).
Proof.
  induction 1 as [ | it l Hit Hl IH]; [constructor | ].
  rewrite sort_by_y_cons.
  - apply insert_by_y_sorted; auto.
    apply (numeric_y_perm l); [ | assumption].
    symmetry. apply sort_by_y_perm.
Qed.

(** A sorted list is left as it is. *)
Lemma sort_by_y_fixed (l : list item) : top_to_bottom l -> sort_by_y l = l.
Proof.
  induction 1 as [ | it l S IH F]; [reflexivity | ].
  rewrite sort_by_y_cons, IH. destruct l as [ | e rest]; cbn; [reflexivity | ].
  inversion F as [ | ? ? L _]; subst.
  now rewrite (at_most_not_ltb _ _ L).
Qed.

Lemma sort_by_y_idempotent (l : list item) :
  numeric_y l -> sort_by_y (sort_by_y l) = sort_by_y l.
Proof. intros Hl. now apply sort_by_y_fixed, sort_by_y_sorted. Qed.

(** Among the fragments of one height the sort changes nothing. *)
Lemma insert_by_y_stable (k : float) (it : item) (l : list item) :
  filter (same_y k) (insert_by_y it l) = filter (same_y k) (it :: l).
Proof.
  induction l as [ | e rest IH]; [reflexivity | ].
  cbn [insert_by_y]. destruct (Item.y e <? Item.y it)%float eqn:E; [ | reflexivity].
  cbn [filter] in *. rewrite IH.
  destruct (same_y k e) eqn:Ee, (same_y k it) eqn:Ei; try reflexivity.
  unfold same_y in *. rewrite (eqb_not_ltb _ _ _ Ee Ei) in E. discriminate.
Qed.

Lemma sort_by_y_stable (k : float) (l : list item) :
  filter (same_y k) (sort_by_y l) = filter (same_y k) l.
Proof.
  induction l as [ | it l IH]; [reflexivity | ].
  rewrite sort_by_y_cons, insert_by_y_stable.
  cbn [filter]. now rewrite IH.
Qed.

(** ** [strip] and the collected fragments *)

Section StripFacts.
Variable db : PyStr.ucd.

Lemma lstrip_head (s r : pystr) (c : PyStr.char) :
  PyStr.lstrip db s = c :: r -> PyStr.isspace db c = false.
Proof.
  induction s as [ | a s IH]; cbn; [discriminate | ].
  destruct (PyStr.isspace db a) eqn:E; [assumption | ].
  intros [= <- _]. assumption.
Qed.

Lemma lstrip_nil_iff (s : pystr) :
  PyStr.lstrip db s = [] <-> blank db s = true.
Proof.
  induction s as [ | a s IH]; cbn; [tauto | ].
  destruct (PyStr.isspace db a); cbn; [assumption | ].
  split; discriminate.
Qed.

Lemma lstrip_snoc (s : pystr) (c : PyStr.char) :
  PyStr.isspace db c = false ->
  PyStr.lstrip db (s ++ [c]) = PyStr.lstrip db s ++ [c].
Proof.
  intros Hc. induction s as [ | a s IH]; cbn.
  - now rewrite Hc.
  - destruct (PyStr.isspace db a); [assumption | reflexivity].
Qed.

Lemma rstrip_cons (s : pystr) (c : PyStr.char) :
  PyStr.isspace db c = false ->
  PyStr.rstrip db (c :: s) = c :: PyStr.rstrip db s.
Proof.
  intros Hc. unfold PyStr.rstrip. cbn [rev].
  rewrite lstrip_snoc by assumption. rewrite rev_app_distr. reflexivity.
Qed.

Lemma blank_rev (s : pystr) : blank db (rev s) = blank db s.
Proof.
  unfold blank. induction s as [ | a s IH]; cbn; [reflexivity | ].
  rewrite forallb_app, IH. cbn. rewrite andb_true_r. apply andb_comm.
Qed.

Lemma rstrip_nil_iff (s : pystr) :
  PyStr.rstrip db s = [] <-> blank db s = true.
Proof.
  unfold PyStr.rstrip. rewrite <- blank_rev, <- lstrip_nil_iff.
  split; intros E.
  - apply (f_equal (@rev _)) in E. now rewrite rev_involutive in E.
  - now rewrite E.
Qed.

Lemma strip_nil_iff (s : pystr) :
  PyStr.strip db s = [] <-> blank db s = true.
Proof.
  unfold PyStr.strip. rewrite rstrip_nil_iff.
  destruct (PyStr.lstrip db s) as [ | c r] eqn:E.
  - split; [intros _; now apply lstrip_nil_iff | reflexivity].
  - pose proof (lstrip_head _ _ _ E) as Hc. cbn. rewrite Hc. cbn.
    split; [discriminate | ]. intros B. apply lstrip_nil_iff in B. congruence.
Qed.

(** A stripped text does not start with whitespace: it is not blank. *)
Lemma strip_head (s r : pystr) (c : PyStr.char) :
  PyStr.strip db s = c :: r -> PyStr.isspace db c = false.
Proof.
  unfold PyStr.strip. destruct (PyStr.lstrip db s) as [ | a u] eqn:E.
  - discriminate.
  - pose proof (lstrip_head _ _ _ E) as Ha.
    rewrite rstrip_cons by assumption. now intros [= <- _].
Qed.

Lemma span_item_fragment (s : span) :
  span_item db s =
  if blank db (span_text s) then None else Some (fragment_of db s).
Proof.
  unfold span_item, fragment_of.
  destruct (blank db (span_text s)) eqn:B.
  - apply strip_nil_iff in B. now rewrite B.
  - destruct (PyStr.strip db (span_text s)) as [ | c r] eqn:E.
    + apply strip_nil_iff in E. congruence.
    + now destruct (span_bbox s) as [[[x0 y0] x1] y1].
Qed.

Lemma line_items_fragments (l : list span) :
  flat_map (fun s => match span_item db s with Some it => [it] | None => [] end) l =
  map (fragment_of db) (filter (fun s => negb (blank db (span_text s))) l).
Proof.
  induction l as [ | s l IH]; cbn; [reflexivity | ].
  rewrite span_item_fragment, IH.
  now destruct (blank db (span_text s)).
Qed.

Lemma lines_items_fragments (ls : list line) :
  flat_map (line_items db) ls =
  map (fragment_of db)
      (filter (fun s => negb (blank db (span_text s))) (flat_map line_spans ls)).
Proof.
  induction ls as [ | l ls IH]; cbn; [reflexivity | ].
  rewrite IH, filter_app, map_app. f_equal. apply line_items_fragments.
Qed.

(** The three loops collect exactly the non-blank spans, in their order. *)
Lemma collect_text_items_fragments (p : page) :
  collect_text_items db (page_blocks p) = fragments db p.
Proof.
  unfold fragments, page_spans, collect_text_items.
  induction (page_blocks p) as [ | b bs IH]; cbn; [reflexivity | ].
  rewrite IH, filter_app, map_app. f_equal.
  unfold block_items. destruct (block_lines b); [ | reflexivity].
  apply lines_items_fragments.
Qed.

Lemma fragments_not_blank (p : page) :
  Forall (fun it => Item.text it <> [] /\ blank db (Item.text it) = false)
         (fragments db p).
Proof.
  unfold fragments. apply Forall_map, Forall_forall.
  intros s [_ B]%filter_In. apply negb_true_iff in B.
  assert (N : PyStr.strip db (span_text s) <> []).
  { intros E. apply strip_nil_iff in E. congruence. }
  unfold fragment_of. destruct (span_bbox s) as [[[x0 y0] x1] y1]. cbn.
  split; [assumption | ].
  destruct (PyStr.strip db (span_text s)) as [ | c r] eqn:E; [congruence | ].
  cbn. now rewrite (strip_head _ _ _ E).
Qed.

End StripFacts.

(** ** The extractor *)

(** C3: on a page whose fragments have numbers for [y], the extractor returns
    the fragments of the non-blank spans, each once (a permutation of them),
    ordered top to bottom: every fragment's [y] is at most that of every
    later one; no fragment has an empty or all-whitespace text. *)
Theorem extractor_sorted_nonblank (db : PyStr.ucd) (p : page) :
  numeric_y (fragments db p) ->
  top_to_bottom (all_text_items db p) /\
  Permutation (all_text_items db p) (fragments db p) /\
  Forall (fun it => Item.text it <> [] /\ blank db (Item.text it) = false)
         (all_text_items db p).
Proof.
  intros Hn. unfold all_text_items. rewrite collect_text_items_fragments.
  split; [now apply sort_by_y_sorted | ].
  split; [apply sort_by_y_perm | ].
  rewrite sort_by_y_perm. apply fragments_not_blank.
Qed.

Lemma extractor_sorted_nonblank_witness :
  numeric_y (fragments PyStr.ucd_none Sample.diploma) /\
  top_to_bottom (all_text_items PyStr.ucd_none Sample.diploma) /\
  map Item.y (all_text_items PyStr.ucd_none Sample.diploma) =
    [277; 317; 317; 713]%float.
Proof.
  assert (Hn : numeric_y (fragments PyStr.ucd_none Sample.diploma)).
  { repeat constructor. }
  split; [exact Hn | ].
  split; [ | reflexivity].
  exact (proj1 (extractor_sorted_nonblank PyStr.ucd_none Sample.diploma Hn)).
Defined.

Lemma filter_split {A : Type} (f : A -> bool) (l u v : list A) (a : A) :
  filter f l = u ++ a :: v ->
  exists l1 l2, l = l1 ++ a :: l2 /\ filter f l1 = u /\ filter f l2 = v.
Proof.
  revert u. induction l as [ | b l IH]; intros u E; cbn in E.
  - now destruct u.
  - destruct (f b) eqn:Fb.
    + destruct u as [ | c u]; cbn in E; injection E as -> E.
      * exists [], l. cbn. auto.
      * destruct (IH _ E) as (l1 & l2 & -> & E1 & E2).
        exists (c :: l1), l2. cbn. rewrite Fb, E1. auto.
    + destruct (IH _ E) as (l1 & l2 & -> & E1 & E2).
      exists (b :: l1), l2. cbn. rewrite Fb. auto.
Qed.

(** ** The name pattern *)

Section NameFacts.
Variable db : PyStr.ucd.

Lemma in_range_iff (lo hi c : PyStr.char) :
  PyStr.in_range lo hi c = true <-> (lo <= c <= hi)%N.
Proof.
  unfold PyStr.in_range. rewrite andb_true_iff, !N.leb_le. tauto.
Qed.

Lemma name_class_iff (c : PyStr.char) :
  PyStr.name_class db c = true <-> letter c \/ space db c \/ period c.
Proof.
  unfold PyStr.name_class, letter, space, period, PyStr.is_AZ, PyStr.is_az.
  rewrite !orb_true_iff, !in_range_iff, N.eqb_eq. tauto.
Qed.

Lemma In_countdown (hi lo k : nat) :
  In k (PyStr.countdown hi lo) <-> lo <= k <= hi.
Proof.
  unfold PyStr.countdown. rewrite <- in_rev, in_seq. lia.
Qed.

Lemma run_length_le (p : PyStr.char -> bool) (s : pystr) :
  PyStr.run_length p s <= length s.
Proof.
  induction s as [ | c s IH]; cbn; [lia | ]. destruct (p c); cbn; lia.
Qed.

Lemma run_length_firstn (p : PyStr.char -> bool) (s : pystr) (k : nat) :
  k <= PyStr.run_length p s -> forallb p (firstn k s) = true.
Proof.
  revert k. induction s as [ | c s IH]; intros k Hk; cbn in Hk.
  - now replace k with 0 by lia.
  - destruct k as [ | k]; [reflexivity | ]. cbn.
    destruct (p c); [ | lia]. cbn. apply IH. lia.
Qed.

Lemma run_length_all (p : PyStr.char -> bool) (s : pystr) :
  forallb p s = true -> PyStr.run_length p s = length s.
Proof.
  induction s as [ | c s IH]; cbn; [reflexivity | ].
  destruct (p c); cbn; [ | discriminate]. intros E. now rewrite IH.
Qed.

(** The run stops at the first character outside the class. *)
Lemma run_length_app_stop (p : PyStr.char -> bool) (m r : pystr) :
  forallb p m = true ->
  match r with [] => True | c :: _ => p c = false end ->
  PyStr.run_length p (m ++ r) = length m.
Proof.
  intros Hm Hr. induction m as [ | a m IH]; cbn in *.
  - destruct r as [ | c r]; cbn; [reflexivity | now rewrite Hr].
  - apply andb_true_iff in Hm. destruct Hm as [-> Hm]. now rewrite IH.
Qed.

(** The pattern [^[A-Za-z\s\.]+$] accepts exactly the non-empty texts all of
    whose characters are in the class. *)
Lemma re_match_name_iff (s : pystr) :
  PyStr.re_match_name db s = true <->
  s <> [] /\ forallb (PyStr.name_class db) s = true.
Proof.
  unfold PyStr.re_match_name. rewrite existsb_exists. split.
  - intros (k & Hk%In_countdown & D).
    pose proof (run_length_firstn _ _ _ (proj2 Hk)) as F.
    rewrite <- (firstn_skipn k s). split.
    + intros E. apply (f_equal (@length _)) in E.
      rewrite length_app, length_firstn in E. cbn in E.
      pose proof (run_length_le (PyStr.name_class db) s). lia.
    + rewrite forallb_app, F. cbn.
      destruct (skipn k s) as [ | c [ | ? ?]]; cbn in *; try discriminate;
        [reflexivity | ].
      apply N.eqb_eq in D. subst c. reflexivity.
  - intros [N F]. exists (length s). split.
    + apply In_countdown. rewrite (run_length_all _ _ F).
      destruct s; cbn; [congruence | lia].
    + now rewrite skipn_all.
Qed.

Lemma startswith_iff (s p : pystr) :
  PyStr.startswith s p = true <-> exists after, s = p ++ after.
Proof.
  revert s. induction p as [ | a p IH]; intros s; cbn.
  - split; [intros _; now exists s | reflexivity].
  - destruct s as [ | b s].
    + split; [discriminate | intros [? ?]; discriminate].
    + rewrite andb_true_iff, N.eqb_eq, IH. split.
      * intros [-> [after ->]]. now exists after.
      * intros [after [= -> ->]]. split; [reflexivity | now exists after].
Qed.

(** [needle in hay] is: [needle] occurs in [hay]. *)
Lemma contains_iff (needle hay : pystr) :
  PyStr.contains needle hay = true <-> Substring needle hay.
Proof.
  unfold Substring. induction hay as [ | c hay IH]; cbn.
  - rewrite orb_false_r, startswith_iff. split.
    + intros [after E]. now exists [], after.
    + intros (before & after & E). destruct before; [now exists after | discriminate].
  - rewrite orb_true_iff, startswith_iff, IH. split.
    + intros [[after E] | (before & after & E)].
      * now exists [], after.
      * exists (c :: before), after. now rewrite E.
    + intros (before & after & E). destruct before as [ | b before].
      * left. now exists after.
      * right. injection E as _ E. now exists before, after.
Qed.

Lemma is_name_candidate_iff (W H : float) (it : item) :
  is_name_candidate db W H it = true <-> NameRule db W H it.
Proof.
  unfold is_name_candidate, NameRule, less.
  rewrite !andb_true_iff, re_match_name_iff, Nat.ltb_lt, negb_true_iff.
  rewrite Forall_forall, forallb_forall.
  assert (B : existsb (fun skip => PyStr.contains skip (PyStr.lower db (Item.text it)))
                blocklist = false <->
              forall skip, In skip blocklist ->
                ~ Substring skip (PyStr.lower db (Item.text it))).
  { rewrite <- not_true_iff_false, existsb_exists. split.
    - intros N skip Hs S. apply N. exists skip. split; [assumption | ].
      now apply contains_iff.
    - intros N (skip & Hs & C). apply (N skip Hs). now apply contains_iff. }
  rewrite B.
  assert (C : (forall c, In c (Item.text it) -> PyStr.name_class db c = true) <->
              (forall c, In c (Item.text it) -> letter c \/ space db c \/ period c)).
  { split; intros F c Hc; apply name_class_iff, F, Hc. }
  rewrite C.
  assert (L : 5 < length (Item.text it) -> Item.text it <> []).
  { intros L E. rewrite E in L. cbn in L. lia. }
  tauto.
Qed.

(** The name loop stops at the first fragment the name rule accepts. *)
Lemma find_name_result (W H : float) (items : list item) :
  NameResult db W H items (find_name db W H items).
Proof.
  induction items as [ | it rest IH]; cbn.
  - right. split; constructor.
  - destruct (is_name_candidate db W H it) eqn:E.
    + left. exists it. split; [ | reflexivity].
      exists [], rest.
      split; [reflexivity | split; [now apply is_name_candidate_iff | constructor]].
    + assert (N : ~ NameRule db W H it).
      { intros R%is_name_candidate_iff. congruence. }
      destruct IH as [(it' & (before & after & -> & R & F) & ->) | [F ->]].
      * left. exists it'. split; [ | reflexivity].
        exists (it :: before), after.
        split; [reflexivity | split; [assumption | now constructor]].
      * right. split; [now constructor | reflexivity].
Qed.

End NameFacts.

Lemma FirstWith_unique {A : Type} (P : A -> Prop) (l : list A) (a b : A) :
  FirstWith P l a -> FirstWith P l b -> a = b.
Proof.
  intros (u & v & -> & Pa & Fu) (u' & v' & E & Pb & Fu').
  revert u' E Fu'. induction u as [ | c u IH]; intros [ | c' u'] E Fu'; cbn in E.
  - now injection E.
  - injection E as <- _. inversion Fu'; subst. contradiction.
  - injection E as -> _. inversion Fu; subst. contradiction.
  - injection E as <- E. inversion Fu; inversion Fu'; subst. eauto.
Qed.

(** ** The passkey pattern *)

Section PasskeyFacts.
Variable db : PyStr.ucd.

Lemma passkey_class_iff (c : PyStr.char) :
  PyStr.passkey_class c = true <-> upper_or_digit c.
Proof.
  unfold PyStr.passkey_class, upper_or_digit, PyStr.is_AZ, PyStr.is_09.
  rewrite orb_true_iff, !in_range_iff. tauto.
Qed.

Lemma passkey_class_Forall (s : pystr) :
  forallb PyStr.passkey_class s = true <-> Forall upper_or_digit s.
Proof.
  rewrite forallb_forall, Forall_forall.
  split; intros F c Hc; apply passkey_class_iff, F, Hc.
Qed.

(** The class of the pattern lies inside [\w]. *)
Lemma passkey_class_word (c : PyStr.char) :
  PyStr.passkey_class c = true -> PyStr.is_word db c = true.
Proof.
  intros Hc. pose proof Hc as U. apply passkey_class_iff in U.
  unfold PyStr.is_word, PyStr.isalnum.
  assert (A : PyStr.is_ascii c = true) by (apply N.ltb_lt; destruct U; lia).
  rewrite A. unfold PyStr.passkey_class in Hc.
  apply orb_true_iff in Hc. destruct Hc as [-> | ->]; cbn;
    rewrite ?orb_true_r; reflexivity.
Qed.

Lemma word_at_outside (o : option PyStr.char) :
  PyStr.word_at db o = false <-> edge_or_outside (PyStr.is_word db) o.
Proof. destruct o; cbn; tauto. Qed.

Lemma word_at_not_class (r : pystr) :
  PyStr.word_at db (hd_error r) = false ->
  match r with [] => True | c :: _ => PyStr.passkey_class c = false end.
Proof.
  destruct r as [ | c r]; cbn; [trivial | ]. intros Wc.
  destruct (PyStr.passkey_class c) eqn:E; [ | reflexivity].
  apply passkey_class_word in E. congruence.
Qed.

Lemma countdown_cons (hi lo : nat) :
  lo <= hi -> exists rest, PyStr.countdown hi lo = hi :: rest.
Proof.
  intros L. unfold PyStr.countdown.
  replace (S hi - lo) with (S (hi - lo)) by lia.
  rewrite seq_S, rev_app_distr. cbn.
  replace (lo + (hi - lo)) with hi by lia. eauto.
Qed.

Lemma hd_error_nth_error {A : Type} (l : list A) : hd_error l = nth_error l 0.
Proof. now destruct l. Qed.

(** A non-empty text whose characters are in the class starts and ends
    with a word character. *)
Lemma class_first_word (m r : pystr) :
  forallb PyStr.passkey_class m = true -> 1 <= length m ->
  PyStr.word_at db (hd_error (m ++ r)) = true.
Proof.
  destruct m as [ | c m]; cbn; [lia | ].
  intros F _. apply andb_true_iff in F. now apply passkey_class_word.
Qed.

Lemma class_last_word (m r : pystr) :
  forallb PyStr.passkey_class m = true -> 1 <= length m ->
  PyStr.word_at db (nth_error (m ++ r) (length m - 1)) = true.
Proof.
  intros F L. rewrite nth_error_app1 by lia.
  destruct (nth_error m (length m - 1)) as [c | ] eqn:E.
  - cbn. apply passkey_class_word.
    rewrite forallb_forall in F. eapply F, nth_error_In, E.
  - apply nth_error_None in E. lia.
Qed.

Lemma nth_error_after (m r : pystr) :
  nth_error (m ++ r) (length m) = hd_error r.
Proof.
  rewrite nth_error_app2 by lia. rewrite Nat.sub_diag. symmetry.
  apply hd_error_nth_error.
Qed.

(** One attempt of the pattern succeeds with [m] exactly when [m] is a token
    that starts here. *)
Lemma match_passkey_at_iff (ctx : option PyStr.char) (s m : pystr) :
  PyStr.match_passkey_at db ctx s = Some m <->
  exists after, TokenIn db ctx s [] m after.
Proof.
  unfold PyStr.match_passkey_at, TokenIn, left_of. cbn [rev hd_error app]. split.
  - destruct (PyStr.at_boundary db ctx (hd_error s)) eqn:B; [ | discriminate].
    destruct (find _ _) as [n | ] eqn:F; [ | discriminate]. intros [= <-].
    apply find_some in F. destruct F as [Hn%In_countdown Bn].
    pose proof (run_length_le PyStr.passkey_class s) as Ls.
    assert (Lm : length (firstn n s) = n) by (rewrite length_firstn; lia).
    assert (Fm : forallb PyStr.passkey_class (firstn n s) = true)
      by (apply run_length_firstn; lia).
    assert (E : s = firstn n s ++ skipn n s) by (symmetry; apply firstn_skipn).
    remember (firstn n s) as m eqn:Hm. remember (skipn n s) as r eqn:Hr.
    clear Hm Hr Ls. subst s n.
    exists r. split; [reflexivity | ]. split; [lia | ]. split; [assumption | ].
    unfold PyStr.at_boundary in B, Bn.
    rewrite class_first_word in B by (auto; lia).
    rewrite class_last_word, nth_error_after in Bn by (auto; lia).
    split.
    + now destruct (PyStr.word_at db ctx).
    + now destruct (PyStr.word_at db (hd_error r)).
  - intros (after & -> & L & F & Wl & Wr).
    unfold PyStr.at_boundary.
    rewrite class_first_word, Wl by (auto; lia). cbn [xorb].
    rewrite (run_length_app_stop _ _ _ F (word_at_not_class _ Wr)).
    replace (Nat.min 12 (length m)) with (length m) by lia.
    destruct (countdown_cons (length m) 6 (proj1 L)) as [rest ->].
    cbn [find]. rewrite class_last_word, nth_error_after, Wr by (auto; lia).
    cbn [xorb]. f_equal. rewrite firstn_app, Nat.sub_diag, firstn_all. cbn.
    apply app_nil_r.
Qed.

Lemma left_of_cons (ctx : option PyStr.char) (c : PyStr.char) (before : pystr) :
  left_of ctx (c :: before) = left_of (Some c) before.
Proof.
  unfold left_of. cbn [rev].
  destruct (rev before) as [ | d r]; reflexivity.
Qed.

Lemma TokenIn_cons (ctx : option PyStr.char) (c : PyStr.char)
  (s before tok after : pystr) :
  TokenIn db ctx (c :: s) (c :: before) tok after <->
  TokenIn db (Some c) s before tok after.
Proof.
  unfold TokenIn. rewrite left_of_cons. cbn [app]. split.
  - intros ([= E] & R). tauto.
  - intros (-> & R). tauto.
Qed.

(** The scan: the first match is the leftmost token, and there is no match
    exactly when there is no token. *)
Lemma findall_from_spec (s : pystr) (ctx : option PyStr.char) :
  match PyStr.findall_from db ctx s 0 with
  | [] => forall before tok after, ~ TokenIn db ctx s before tok after
  | m :: _ =>
      exists before after,
        TokenIn db ctx s before m after /\
        forall before' tok' after',
          TokenIn db ctx s before' tok' after' -> length before <= length before'
  end.
Proof.
  revert ctx. induction s as [ | c s IH]; intros ctx.
  - cbn. intros before tok after (E & L & _).
    symmetry in E. apply app_eq_nil in E. destruct E as [_ E].
    apply app_eq_nil in E. destruct E as [-> _]. cbn in L. lia.
  - cbn [PyStr.findall_from].
    destruct (PyStr.match_passkey_at db ctx (c :: s)) as [m | ] eqn:M.
    + apply match_passkey_at_iff in M. destruct M as [after T].
      exists [], after. split; [assumption | ]. intros; cbn; lia.
    + assert (N : forall tok after, ~ TokenIn db ctx (c :: s) [] tok after).
      { intros tok after T.
        assert (M' : PyStr.match_passkey_at db ctx (c :: s) = Some tok)
          by (apply match_passkey_at_iff; eauto).
        congruence. }
      specialize (IH (Some c)).
      destruct (PyStr.findall_from db (Some c) s 0) as [ | m ms].
      * intros [ | b before] tok after T; [now apply (N tok after) | ].
        pose proof T as (E & _). cbn in E. injection E as <- _.
        apply TokenIn_cons in T. now apply (IH before tok after).
      * destruct IH as (before & after & T & Min).
        exists (c :: before), after. split; [now apply TokenIn_cons | ].
        intros [ | b before'] tok' after' T'; [now apply N in T' | ].
        pose proof T' as (E & _). cbn in E. injection E as <- _.
        apply TokenIn_cons in T'. apply Min in T'. cbn. lia.
Qed.

Lemma TokenIn_TokenAt (s before tok after : pystr) :
  TokenIn db None s before tok after <->
  TokenAt (PyStr.is_word db) s before tok after.
Proof.
  unfold TokenIn, TokenAt, left_of.
  rewrite passkey_class_Forall, <- !word_at_outside.
  destruct (hd_error (rev before)); tauto.
Qed.

Lemma re_findall_passkey_nil (s : pystr) :
  PyStr.re_findall_passkey db s = [] -> ~ HasToken (PyStr.is_word db) s.
Proof.
  unfold PyStr.re_findall_passkey. intros E (before & tok & after & T).
  pose proof (findall_from_spec s None) as S. rewrite E in S.
  apply (S before tok after). now apply TokenIn_TokenAt.
Qed.

Lemma re_findall_passkey_first (s m : pystr) (ms : list pystr) :
  PyStr.re_findall_passkey db s = m :: ms -> FirstToken (PyStr.is_word db) s m.
Proof.
  unfold PyStr.re_findall_passkey. intros E.
  pose proof (findall_from_spec s None) as S. rewrite E in S.
  destruct S as (before & after & T & Min).
  exists before, after. split; [now apply TokenIn_TokenAt | ].
  intros before' tok' after' T'. apply (Min before' tok' after').
  now apply TokenIn_TokenAt.
Qed.

Lemma FirstToken_HasToken (inside : PyStr.char -> bool) (s tok : pystr) :
  FirstToken inside s tok -> HasToken inside s.
Proof. intros (before & after & T & _). now exists before, tok, after. Qed.

Lemma in_passkey_area_iff (W H : float) (it : item) :
  in_passkey_area W H it = true <-> PasskeyArea W H it.
Proof. unfold in_passkey_area, PasskeyArea, less. apply andb_true_iff. Qed.

(** The passkey loop stops at the first fragment of the area that holds a
    token, and takes its leftmost token. *)
Lemma find_passkey_result (W H : float) (items : list item) :
  PasskeyResult W H (PyStr.is_word db) items (find_passkey db W H items).
Proof.
  induction items as [ | it rest IH]; cbn.
  - right. split; constructor.
  - assert (Skip : ~ PasskeyRule W H (PyStr.is_word db) it ->
                   PasskeyResult W H (PyStr.is_word db) (it :: rest)
                     (find_passkey db W H rest)).
    { intros N.
      destruct IH as [(it' & (before & after & -> & R & F) & T) | [F ->]].
      - left. exists it'. split; [ | assumption].
        exists (it :: before), after.
        split; [reflexivity | split; [assumption | now constructor]].
      - right. split; [now constructor | reflexivity]. }
    destruct (in_passkey_area W H it) eqn:A.
    + destruct (PyStr.re_findall_passkey db (Item.text it)) as [ | m ms] eqn:E.
      * apply Skip. intros [_ T]. now apply re_findall_passkey_nil in E.
      * apply re_findall_passkey_first in E.
        left. exists it. split; [ | assumption].
        exists [], rest. split; [reflexivity | ]. split; [ | constructor].
        split; [now apply in_passkey_area_iff | ].
        now apply FirstToken_HasToken in E.
    + apply Skip. intros [R%in_passkey_area_iff _]. congruence.
Qed.

End PasskeyFacts.

(** ** The two rules determine their result *)

Lemma FirstWith_none {A : Type} (P : A -> Prop) (l : list A) (a : A) :
  FirstWith P l a -> Forall (fun b => ~ P b) l -> False.
Proof.
  intros (u & v & -> & Pa & _) F.
  apply Forall_app in F. destruct F as [_ F]. inversion F; subst. contradiction.
Qed.

Lemma NameResult_unique (db : PyStr.ucd) (W H : float) (items : list item)
  (n1 n2 : pystr) :
  NameResult db W H items n1 -> NameResult db W H items n2 -> n1 = n2.
Proof.
  intros [(a & Fa & ->) | [Na ->]] [(b & Fb & ->) | [Nb ->]].
  - now rewrite (FirstWith_unique _ _ _ _ Fa Fb).
  - destruct (FirstWith_none _ _ _ Fa Nb).
  - destruct (FirstWith_none _ _ _ Fb Na).
  - reflexivity.
Qed.

(** Two tokens that start at the same place are the same token. *)
Lemma token_same_start (inside : PyStr.char -> bool) (t1 t2 a1 a2 : pystr) :
  (forall c, upper_or_digit c -> inside c = true) ->
  t1 ++ a1 = t2 ++ a2 ->
  Forall upper_or_digit t1 -> Forall upper_or_digit t2 ->
  edge_or_outside inside (hd_error a1) -> edge_or_outside inside (hd_error a2) ->
  t1 = t2.
Proof.
  intros Hin. revert t2.
  induction t1 as [ | c t1 IH]; intros [ | c' t2] E F1 F2 B1 B2; cbn in E.
  - reflexivity.
  - subst a1. cbn in B1. inversion F2 as [ | ? ? U _]; subst.
    rewrite (Hin _ U) in B1. discriminate.
  - subst a2. cbn in B2. inversion F1 as [ | ? ? U _]; subst.
    rewrite (Hin _ U) in B2. discriminate.
  - injection E as <- E. inversion F1; inversion F2; subst.
    f_equal. now apply IH.
Qed.

Lemma app_same_length {A : Type} (u u' v v' : list A) :
  u ++ v = u' ++ v' -> length u = length u' -> u = u' /\ v = v'.
Proof.
  revert u'. induction u as [ | a u IH]; intros [ | a' u'] E L; cbn in *;
    try discriminate; [auto | ].
  injection E as -> E. injection L as L.
  destruct (IH _ E L) as [-> ->]. auto.
Qed.

Lemma FirstToken_unique (inside : PyStr.char -> bool) (s t1 t2 : pystr) :
  (forall c, upper_or_digit c -> inside c = true) ->
  FirstToken inside s t1 -> FirstToken inside s t2 -> t1 = t2.
Proof.
  intros Hin (b1 & a1 & T1 & M1) (b2 & a2 & T2 & M2).
  pose proof (M1 _ _ _ T2). pose proof (M2 _ _ _ T1).
  destruct T1 as (E1 & _ & F1 & _ & R1), T2 as (E2 & _ & F2 & _ & R2).
  rewrite E1 in E2.
  destruct (app_same_length _ _ _ _ E2 ltac:(lia)) as [_ E].
  now apply (token_same_start inside t1 t2 a1 a2).
Qed.

Lemma PasskeyResult_unique (W H : float) (inside : PyStr.char -> bool)
  (items : list item) (k1 k2 : pystr) :
  (forall c, upper_or_digit c -> inside c = true) ->
  PasskeyResult W H inside items k1 -> PasskeyResult W H inside items k2 ->
  k1 = k2.
Proof.
  intros Hin [(a & Fa & Ta) | [Na ->]] [(b & Fb & Tb) | [Nb ->]].
  - rewrite (FirstWith_unique _ _ _ _ Fa Fb) in Ta.
    now apply (FirstToken_unique inside (Item.text b)).
  - destruct (FirstWith_none _ _ _ Fa Nb).
  - destruct (FirstWith_none _ _ _ Fb Na).
  - reflexivity.
Qed.

Lemma upper_or_digit_word (db : PyStr.ucd) (c : PyStr.char) :
  upper_or_digit c -> PyStr.is_word db c = true.
Proof. intros U. now apply passkey_class_word, passkey_class_iff. Qed.

(** ** The matcher *)

Lemma FirstWith_ext {A : Type} (P Q : A -> Prop) (l : list A) (a : A) :
  (forall b, P b <-> Q b) -> FirstWith P l a -> FirstWith Q l a.
Proof.
  intros E (before & after & -> & Pa & F).
  exists before, after. split; [reflexivity | ]. split; [now apply E | ].
  revert F. apply Forall_impl. intros b N Qb. apply N. now apply E.
Qed.

Lemma lower_cased_ascii (s : pystr) : map PyStr.lower_ascii s = lower_cased s.
Proof. reflexivity. Qed.

(** On a text of letters A to Z and a to z, whitespace and periods,
    [str.lower] is the character-wise lowering of the specification. *)
Lemma lower_of_name_text (db : PyStr.ucd) (text : pystr) :
  lower_leaves_whitespace db ->
  Forall (fun c => letter c \/ space db c \/ period c) text ->
  PyStr.lower db text = lower_cased text.
Proof.
  intros Hdb F. unfold PyStr.lower.
  destruct (forallb PyStr.is_ascii text) eqn:A; [apply lower_cased_ascii | ].
  apply Hdb; [assumption | ].
  revert F. apply Forall_impl. intros c [L | [S | P]].
  - left. apply N.ltb_lt. unfold letter in L. lia.
  - now right.
  - left. unfold period in P. subst c. reflexivity.
Qed.

(** The rule of the specification, read with the letters A to Z and a to z
    and with whitespace for "spaces", is the condition of the name loop. *)
Lemma NameRuleOf_iff (db : PyStr.ucd) (W H : float) (it : item) :
  lower_leaves_whitespace db ->
  (NameRuleOf letter (space db) W H it <-> NameRule db W H it).
Proof.
  intros Hdb. unfold NameRuleOf, NameRule.
  change listed_words with blocklist.
  change (fun c : PyStr.char => letter c \/ space db c \/ c = 46%N)
    with (fun c : PyStr.char => letter c \/ space db c \/ period c).
  split; intros (F & X & Y & C & L & B); repeat (split; [assumption | ]);
    intros word Hw; specialize (B word Hw);
    now rewrite (lower_of_name_text db _ Hdb C) in *.
Qed.

Lemma NameResultOf_iff (db : PyStr.ucd) (W H : float) (items : list item)
  (name : pystr) :
  lower_leaves_whitespace db ->
  (NameResultOf letter (space db) W H items name <-> NameResult db W H items name).
Proof.
  intros Hdb. unfold NameResultOf, NameResult.
  assert (E : forall b, NameRuleOf letter (space db) W H b <-> NameRule db W H b)
    by (intros b; now apply NameRuleOf_iff).
  assert (E' : forall b, NameRule db W H b <-> NameRuleOf letter (space db) W H b)
    by (intros b; symmetry; apply E).
  split; intros [(it & Fw & ->) | [F ->]].
  - left. exists it. split; [now apply (FirstWith_ext _ _ _ _ E) | reflexivity].
  - right. split; [ | reflexivity]. revert F. apply Forall_impl.
    intros b N R. apply N. now apply E.
  - left. exists it. split; [now apply (FirstWith_ext _ _ _ _ E') | reflexivity].
  - right. split; [ | reflexivity]. revert F. apply Forall_impl.
    intros b N R. apply N. now apply E.
Qed.

(** C1, as the code has it: the name the matcher returns is the text of the
    first fragment of the list with font size above 15, x strictly between
    20% and 80% of the page width, y strictly between 30% and 60% of the
    page height, a text of more than 5 characters that holds only the
    letters A to Z and a to z, whitespace characters and periods and that,
    lower-cased, contains none of the seven listed words; it is the empty
    string if there is no such fragment. The rule holds of the returned
    name and of no other string; on a page the list is the sorted fragment
    list. (The character database lowers A to Z and leaves whitespace as it
    is.) *)
Theorem name_is_first_ascii_candidate (db : PyStr.ucd) :
  lower_leaves_whitespace db ->
  (forall W H items name,
      NameResultOf letter (space db) W H items name <->
      name = fst (match_fields db W H items)) /\
  (forall p name,
      NameResultOf letter (space db) (rect_width p) (rect_height p)
        (all_text_items db p) name <->
      name = fst (extract_name_and_passkey_improved db p)).
Proof.
  intros Hdb.
  assert (G : forall W H items name,
             NameResultOf letter (space db) W H items name <->
             name = find_name db W H items).
  { intros W H items name. rewrite (NameResultOf_iff db W H items name Hdb). split.
    - intros R. apply (NameResult_unique db W H items); [assumption | ].
      apply find_name_result.
    - intros ->. apply find_name_result. }
  split; intros; apply G.
Qed.

Lemma ucd_latin1_lower : lower_leaves_whitespace ucd_latin1.
Proof.
  intros s _ F. cbn [PyStr.ucd_lower ucd_latin1]. unfold lower_cased.
  apply map_ext_in. intros c Hc. rewrite Forall_forall in F.
  assert (R : PyStr.in_range 192%N 222%N c = false).
  { destruct (F c Hc) as [A | S].
    - apply N.ltb_lt in A. unfold PyStr.in_range.
      apply andb_false_iff. left. apply N.leb_gt. lia.
    - unfold PyStr.isspace in S.
      destruct (PyStr.is_ascii c) eqn:A.
      + apply N.ltb_lt in A. unfold PyStr.in_range.
        apply andb_false_iff. left. apply N.leb_gt. lia.
      + cbn in S. apply orb_true_iff in S.
        destruct S as [S | S]; apply N.eqb_eq in S; subst c; reflexivity. }
  rewrite R. cbn [andb]. now rewrite orb_false_r.
Qed.

Lemma name_is_first_ascii_candidate_witness :
  lower_leaves_whitespace ucd_latin1 /\
  NameResultOf letter (space ucd_latin1) Sample.W Sample.H
    [Sample.heading; nbsp_name; Sample.john] (Item.text nbsp_name).
Proof.
  split; [exact ucd_latin1_lower | ].
  apply (proj1 (name_is_first_ascii_candidate ucd_latin1 ucd_latin1_lower)).
  reflexivity.
Defined.

(** C1, as stated, fails in both directions. A text with a tab between its
    words holds a character that is neither a letter, a space nor a period,
    so the rule as stated resolves to the empty string, but the pattern's
    [\s] lets the tab through and the matcher returns the text. A text with
    the letter n-tilde holds letters and spaces only, so the rule as stated
    resolves to it, but the pattern's [A-Za-z] does not let it through and
    the matcher returns the empty string. *)
Lemma name_letters_and_spaces_counterexample :
  (fst (match_fields PyStr.ucd_none Sample.W Sample.H [tabbed_name]) =
     Item.text tabbed_name /\
   forall is_letter : PyStr.char -> Prop,
     ~ is_letter 9%N ->
     NameResultOf is_letter blank_space Sample.W Sample.H [tabbed_name] [] /\
     ~ NameResultOf is_letter blank_space Sample.W Sample.H [tabbed_name]
         (Item.text tabbed_name)) /\
  (fst (match_fields ucd_latin1 Sample.W Sample.H [accented_name]) = [] /\
   forall is_letter : PyStr.char -> Prop,
     (forall c, letter c -> is_letter c) -> is_letter 241%N ->
     NameResultOf is_letter blank_space Sample.W Sample.H [accented_name]
       (Item.text accented_name)).
Proof.
  split; (split; [reflexivity | ]).
  - intros is_letter Tab.
    assert (N : ~ NameRuleOf is_letter blank_space Sample.W Sample.H tabbed_name).
    { intros (_ & _ & _ & C & _).
      rewrite Forall_forall in C.
      destruct (C 9%N) as [L | [S | P]];
        [cbn; tauto | contradiction | discriminate S | discriminate P]. }
    split.
    + right. split; [ | reflexivity]. constructor; [exact N | constructor].
    + intros [(it & Fw & _) | [_ E]]; [ | discriminate E].
      apply (FirstWith_none _ _ _ Fw). constructor; [exact N | constructor].
  - intros is_letter Ascii Tilde.
    left. exists accented_name. split; [ | reflexivity].
    exists [], []. split; [reflexivity | ]. split; [ | constructor].
    split; [reflexivity | ]. split; [split; reflexivity | ].
    split; [split; reflexivity | ]. split; [ | split; [cbn; lia | ]].
    + let t := eval vm_compute in (Item.text accented_name) in
      change (Item.text accented_name) with t.
      repeat (constructor;
              [first [ right; left; reflexivity
                     | left; exact Tilde
                     | left; apply Ascii; unfold letter; lia ] | ]).
      constructor.
    + intros word Hw S. apply contains_iff in S.
      cbn in Hw.
      repeat (destruct Hw as [<- | Hw]; [vm_compute in S; discriminate S | ]).
      destruct Hw.
Qed.

(** C2, as the code has it: the passkey the matcher returns is the leftmost
    whole token (6 to 12 uppercase letters and digits) of the first fragment
    in the bottom right area whose text holds one, where a whole token is
    bounded by the string edge or by a character that is not a word
    character: not alphanumeric and not the underscore. Fragments of the area
    without a token are passed over; with no such fragment the passkey is
    the empty string. *)
Theorem passkey_is_first_token (db : PyStr.ucd) :
  (forall W H items passkey,
      PasskeyResult W H (PyStr.is_word db) items passkey <->
      passkey = snd (match_fields db W H items)) /\
  (forall p passkey,
      PasskeyResult (rect_width p) (rect_height p) (PyStr.is_word db)
        (all_text_items db p) passkey <->
      passkey = snd (extract_name_and_passkey_improved db p)).
Proof.
  assert (G : forall W H items passkey,
             PasskeyResult W H (PyStr.is_word db) items passkey <->
             passkey = find_passkey db W H items).
  { intros W H items passkey. split.
    - intros R.
      apply (PasskeyResult_unique W H (PyStr.is_word db) items);
        [apply upper_or_digit_word | assumption | apply find_passkey_result].
    - intros ->. apply find_passkey_result. }
  split; intros; apply G.
Qed.

(** C2, as stated, fails: in ["ID_AB12CD34"] the code [AB12CD34] is bounded by
    a non-alphanumeric character (the underscore) and the string end, so the
    rule as stated resolves to [AB12CD34]; the matcher finds no passkey,
    because [\b] sees no boundary between [_] and [A]. *)
Lemma passkey_underscore_counterexample :
  PasskeyResult Sample.W Sample.H (PyStr.isalnum PyStr.ucd_none)
    [Sample.tagged_code] (py "AB12CD34") /\
  find_passkey PyStr.ucd_none Sample.W Sample.H [Sample.tagged_code] = [] /\
  ~ PasskeyResult Sample.W Sample.H (PyStr.isalnum PyStr.ucd_none)
      [Sample.tagged_code]
      (find_passkey PyStr.ucd_none Sample.W Sample.H [Sample.tagged_code]).
Proof.
  assert (T : TokenAt (PyStr.isalnum PyStr.ucd_none)
                (Item.text Sample.tagged_code) (py "ID_") (py "AB12CD34") []).
  { split; [reflexivity | ]. split; [cbn; lia | ].
    split; [ | split; [reflexivity | exact I]].
    apply passkey_class_Forall. reflexivity. }
  assert (R : PasskeyRule Sample.W Sample.H (PyStr.isalnum PyStr.ucd_none)
                Sample.tagged_code).
  { split; [split; reflexivity | ]. now exists (py "ID_"), (py "AB12CD34"), []. }
  split; [ | split; [reflexivity | ]].
  - left. exists Sample.tagged_code. split.
    + exists [], []. split; [reflexivity | split; [exact R | constructor]].
    + exists (py "ID_"), []. split; [exact T | ].
      intros before' tok' after' (E & L & F & _).
      assert (U : ~ upper_or_digit 95%N) by (unfold upper_or_digit; lia).
      destruct before' as [ | b0 [ | b1 [ | b2 before']]]; [ | | | cbn; lia];
        exfalso; cbn in E;
        repeat match goal with
               | F : Forall _ (_ :: _) |- _ => inversion F; clear F; subst
               | E : _ :: _ = _ :: _ |- _ => injection E as ? E; subst
               | E : _ :: _ = ?t ++ _ |- _ =>
                   is_var t; destruct t; cbn in E, L; [lia | ]
               end; try contradiction.
  - change (find_passkey PyStr.ucd_none Sample.W Sample.H [Sample.tagged_code])
      with (@nil PyStr.char).
    intros [(it & _ & (before & after & (_ & L & _) & _)) | [F _]].
    + cbn in L. lia.
    + inversion F; subst. contradiction.
Qed.





(** C8: the passkey is the empty string or 6 to 12 characters, each an
    uppercase letter A-Z or a digit 0-9. *)
Theorem passkey_shape (db : PyStr.ucd) (W H : float) (items : list item) :
  let passkey := snd (match_fields db W H items) in
  passkey = [] \/
  (6 <= length passkey <= 12 /\ Forall upper_or_digit passkey).
Proof.
  cbn.
  destruct (find_passkey_result db W H items)
    as [(it & _ & (before & after & (_ & L & F & _) & _)) | [_ E]]; auto.
Qed.

(** *** The loops, run step by step *)

Section MatcherRuns.
Variable db : PyStr.ucd.
Variables W H : float.

Lemma step_deterministic (s s1 s2 : Matcher.state) :
  Matcher.step db W H s s1 -> Matcher.step db W H s s2 -> s1 = s2.
Proof.
  intros S1 S2. inversion S1; subst; inversion S2; subst;
    try reflexivity; congruence.
Qed.

Lemma step_keeps_list (s s' : Matcher.state) :
  Matcher.step db W H s s' ->
  Matcher.all_text_items s' = Matcher.all_text_items s.
Proof. now inversion 1. Qed.

Lemma Returned_is_final (s s' : Matcher.state) :
  Matcher.at_ s = Matcher.Returned -> ~ Matcher.step db W H s s'.
Proof. intros E S. inversion S; subst; discriminate E. Qed.

Lemma steps_trans (s s' s'' : Matcher.state) :
  Matcher.steps db W H s s' -> Matcher.steps db W H s' s'' ->
  Matcher.steps db W H s s''.
Proof.
  induction 1 as [ | a b c S _ IH]; [trivial | ].
  intros T. eapply Matcher.steps_more; [exact S | now apply IH].
Qed.

(** Two step sequences from one state that both end at the [return] end in
    the same state. *)
Lemma steps_to_return_agree (s s1 s2 : Matcher.state) :
  Matcher.steps db W H s s1 -> Matcher.at_ s1 = Matcher.Returned ->
  Matcher.steps db W H s s2 -> Matcher.at_ s2 = Matcher.Returned ->
  s1 = s2.
Proof.
  intros T1. revert s2.
  induction T1 as [s | s a s1 S T1 IH]; intros s2 R1 T2 R2.
  - destruct T2 as [ | s b s2 S' _]; [reflexivity | ].
    now destruct (Returned_is_final _ _ R1 S').
  - destruct T2 as [ | s b s2 S' T2].
    + now destruct (Returned_is_final _ _ R2 S).
    + rewrite (step_deterministic _ _ _ S' S) in T2. now apply IH.
Qed.

(** The name loop, from any item on, ends with what [find_name] finds. *)
Lemma name_loop_steps (l rest : list item) (k : pystr) :
  Matcher.steps db W H
    (Matcher.mk l [] k (Matcher.NameLoop rest))
    (Matcher.mk l (find_name db W H rest) k (Matcher.PasskeyLoop l)).
Proof.
  induction rest as [ | it rest IH]; cbn.
  - eapply Matcher.steps_more; [apply Matcher.name_exhausted | constructor].
  - destruct (is_name_candidate db W H it) eqn:C.
    + eapply Matcher.steps_more; [now apply Matcher.name_break | constructor].
    + eapply Matcher.steps_more; [now apply Matcher.name_next | exact IH].
Qed.

Lemma passkey_loop_steps (l rest : list item) (n : pystr) :
  Matcher.steps db W H
    (Matcher.mk l n [] (Matcher.PasskeyLoop rest))
    (Matcher.mk l n (find_passkey db W H rest) Matcher.Returned).
Proof.
  induction rest as [ | it rest IH]; cbn.
  - eapply Matcher.steps_more; [apply Matcher.passkey_exhausted | constructor].
  - destruct (in_passkey_area W H it) eqn:A.
    + destruct (PyStr.re_findall_passkey db (Item.text it)) as [ | m ms] eqn:E.
      * eapply Matcher.steps_more; [now apply Matcher.passkey_no_match | exact IH].
      * eapply Matcher.steps_more; [eapply Matcher.passkey_break; eassumption | constructor].
    + eapply Matcher.steps_more; [now apply Matcher.passkey_next | exact IH].
Qed.

Lemma run_exists (items : list item) :
  Matcher.run db W H items
    (Matcher.mk items (find_name db W H items) (find_passkey db W H items)
       Matcher.Returned).
Proof.
  split; [ | reflexivity]. unfold Matcher.start.
  eapply steps_trans; [apply name_loop_steps | apply passkey_loop_steps].
Qed.

End MatcherRuns.

(** C6: the matcher is deterministic and idempotent. Run step by step on a
    fragment list, the two loops reach the [return]; any two runs on the
    same list, the second as well as the first, end in the same state, with
    the same (name, passkey); that pair is the matcher's result; and a run
    leaves the list as it was, so that a second run does work on the same
    list. *)
Theorem matcher_runs_agree (db : PyStr.ucd) (W H : float) (items : list item) :
  (exists final, Matcher.run db W H items final) /\
  (forall first second,
      Matcher.run db W H items first -> Matcher.run db W H items second ->
      second = first) /\
  (forall final,
      Matcher.run db W H items final ->
      Matcher.all_text_items final = items /\
      (Matcher.name final, Matcher.passkey final) = match_fields db W H items).
Proof.
  pose proof (run_exists db W H items) as R.
  split; [eexists; exact R | ]. split.
  - intros first second [T1 R1] [T2 R2].
    now apply (steps_to_return_agree db W H (Matcher.start items)).
  - intros final [T F]. destruct R as [T' F'].
    rewrite (steps_to_return_agree db W H _ _ _ T F T' F'). split; reflexivity.
Qed.


Lemma blocklisted_iff (db : PyStr.ucd) (it : item) :
  blocklisted db it <->
  existsb (fun skip => PyStr.contains skip (PyStr.lower db (Item.text it)))
          blocklist = true.
Proof.
  unfold blocklisted. rewrite existsb_exists.
  split; intros (skip & Hs & C); exists skip; (split; [assumption | ]);
    now apply contains_iff.
Qed.

(** C9, as stated, fails: a fragment that passes the name rule and comes
    first wins, blocklisted or not. Here "Maria Santos" stands above the
    example fragment; nothing before the example fragment is blocklisted, and
    the name is "Maria Santos". *)
Lemma earlier_candidate_counterexample :
  In Sample.john [Sample.maria; Sample.john] /\
  Forall (fun it => ~ blocklisted PyStr.ucd_none it) [Sample.maria] /\
  fst (match_fields PyStr.ucd_none Sample.W Sample.H [Sample.maria; Sample.john])
    = py "Maria Santos" /\
  fst (match_fields PyStr.ucd_none Sample.W Sample.H [Sample.maria; Sample.john])
    <> py "John Michael Dela Cruz".
Proof.
  split; [right; left; reflexivity | ].
  split; [ | split; [reflexivity | discriminate]].
  constructor; [ | constructor].
  intros B%blocklisted_iff. vm_compute in B. discriminate B.
Qed.

(** C9, amended: on a page whose size puts the point (0.4 W, 0.4 H) inside the
    name area, a fragment list that contains the fragment with text
    "John Michael Dela Cruz", font size 18, x = 0.4 W and y = 0.4 H, and in
    which no fragment that satisfies the name rule stands before it, resolves
    to the name "John Michael Dela Cruz". *)
Theorem example_name_resolves (db : PyStr.ucd) (W H : float)
  (before after : list item) (it : item) :
  Item.text it = py "John Michael Dela Cruz" ->
  Item.font_size it = 18%float ->
  Item.x it = (0.4 * W)%float ->
  Item.y it = (0.4 * H)%float ->
  example_point_in_name_area W H ->
  Forall (fun b => ~ NameRule db W H b) before ->
  fst (match_fields db W H (before ++ it :: after)) = py "John Michael Dela Cruz".
Proof.
  intros Et Ef Ex Ey [[X1 X2] [Y1 Y2]] F. cbn [match_fields fst].
  induction F as [ | b before Nb F IH]; cbn [app find_name].
  - assert (C : is_name_candidate db W H it = true).
    { unfold is_name_candidate. rewrite Et, Ef, Ex, Ey.
      unfold less in *. rewrite X1, X2, Y1, Y2. reflexivity. }
    now rewrite C.
  - destruct (is_name_candidate db W H b) eqn:C; [ | assumption].
    apply is_name_candidate_iff in C. contradiction.
Qed.

Lemma example_name_resolves_witness :
  example_point_in_name_area Sample.W Sample.H /\
  Forall (fun b => ~ NameRule PyStr.ucd_none Sample.W Sample.H b) [Sample.heading] /\
  fst (match_fields PyStr.ucd_none Sample.W Sample.H
         ([Sample.heading] ++ Sample.john :: [Sample.maria; Sample.code]))
    = py "John Michael Dela Cruz".
Proof.
  assert (A : example_point_in_name_area Sample.W Sample.H).
  { repeat split. }
  assert (F : Forall (fun b => ~ NameRule PyStr.ucd_none Sample.W Sample.H b)
                [Sample.heading]).
  { constructor; [ | constructor].
    intros R%is_name_candidate_iff. vm_compute in R. discriminate R. }
  split; [exact A | ]. split; [exact F | ].
  exact (example_name_resolves PyStr.ucd_none Sample.W Sample.H
           [Sample.heading] [Sample.maria; Sample.code] Sample.john
           eq_refl eq_refl eq_refl eq_refl A F).
Defined.

(** ** The batch driver *)

(** C7: when the document cannot be opened, the call reports the error and
    returns [None], not a data frame; no page is processed (nothing is
    printed about any page) and no file is written. *)
Theorem open_failure_aborts (db : PyStr.ucd) (e pdf_path output_excel_path : pystr)
  (start_page : Z) (end_page : option Z) :
  let run := scan_pdf_batch db (OpenError e) pdf_path output_excel_path
               start_page end_page in
  fst run = Returns None /\
  written (snd run) = [] /\
  stdout (snd run) = [OpeningPDF pdf_path; ErrorOpeningPDF e] /\
  (forall number total_pages name passkey,
      ~ In (ProcessingPage number total_pages) (stdout (snd run)) /\
      ~ In (NameLine name) (stdout (snd run)) /\
      ~ In (PasskeyLine passkey) (stdout (snd run))).
Proof.
  cbn. repeat split; intros [E | [E | []]]; discriminate E.
Qed.

Lemma py_range_length (a b : Z) : length (py_range a b) = Z.to_nat (b - a).
Proof. unfold py_range. now rewrite length_map, length_seq. Qed.

Lemma py_range_In (a b i : Z) : In i (py_range a b) <-> (a <= i < b)%Z.
Proof.
  unfold py_range. rewrite in_map_iff. split.
  - intros (k & <- & Hk%in_seq). lia.
  - intros Hi. exists (Z.to_nat (i - a)). rewrite in_seq. split; lia.
Qed.

Lemma doc_getitem_in_range (doc : document) (i : Z) :
  (0 <= i < Z.of_nat (length doc))%Z -> exists p, doc_getitem doc i = Some p.
Proof.
  intros Hi. unfold doc_getitem.
  destruct (Z.leb_spec (Z.of_nat (length doc)) i); [lia | ].
  destruct (Z.leb_spec 0 i); [ | lia].
  destruct (nth_error doc (Z.to_nat i)) as [p | ] eqn:E; [eauto | ].
  apply nth_error_None in E. lia.
Qed.

(** The loop appends one row per page number, as long as every number is a
    page of the document. *)
Lemma process_pages_rows (db : PyStr.ucd) (doc : document) (total : Z)
  (page_nums : list Z) :
  Forall (fun i => (0 <= i < Z.of_nat (length doc))%Z) page_nums ->
  exists results,
    fst (process_pages db doc total page_nums) = inr results /\
    map Page results = map (fun i => (i + 1)%Z) page_nums.
Proof.
  induction 1 as [ | i page_nums Hi F (results & E & M)]; cbn.
  - now exists [].
  - destruct (doc_getitem_in_range doc i Hi) as [p ->].
    destruct (extract_name_and_passkey_improved db p) as [name passkey].
    destruct (process_pages db doc total page_nums) as [r out]. cbn in E. subst r.
    eexists. split; [reflexivity | ]. cbn. now rewrite M.
Qed.

(** For a start page that is a page index, the spreadsheet has one row for
    each page in [[start, min(end, total))]; the call returns the frame if
    there is at least one, and ends in [KeyError] on ['Name'] otherwise. *)
Lemma scan_pdf_batch_rows (db : PyStr.ucd) (doc : document)
  (pdf_path output_excel_path : pystr) (start_page : Z) (end_page : option Z) :
  (0 <= start_page)%Z ->
  let total := Z.of_nat (length doc) in
  let stop := Z.min (match end_page with None => total | Some e => e end) total in
  let run := scan_pdf_batch db (Opened doc) pdf_path output_excel_path
               start_page end_page in
  exists df,
    written (snd run) = [(output_excel_path, df)] /\
    map Page (records df) = map (fun i => (i + 1)%Z) (py_range start_page stop) /\
    length (records df) = Z.to_nat (stop - start_page) /\
    fst run = if (start_page <? stop)%Z then Returns (Some df)
              else Raises (KeyError ColName).
Proof.
  intros Hs total stop run. subst run. unfold scan_pdf_batch.
  fold total. fold stop.
  destruct (process_pages_rows db doc total (py_range start_page stop))
    as (results & E & M).
  { apply Forall_forall. intros i Hi%py_range_In. subst stop total. lia. }
  destruct (process_pages db doc total (py_range start_page stop)) as [r out].
  cbn in E. subst r.
  assert (L : length results = Z.to_nat (stop - start_page)).
  { rewrite <- (length_map Page), M, length_map. apply py_range_length. }
  exists (pd_DataFrame results).
  destruct results as [ | r results]; cbn in L.
  - destruct (Z.ltb_spec start_page stop); [lia | ].
    cbn. repeat split; assumption.
  - destruct (Z.ltb_spec start_page stop); [ | lia].
    cbn. repeat split; assumption.
Qed.

(** C4, at the failing input: for start 10 and end 5 on a document of three
    pages no page is processed and a spreadsheet without rows is written, but
    the call does not return: the summary reads column ['Name'] of a frame
    that has no columns, which raises [KeyError]. *)
Theorem empty_range_raises (db : PyStr.ucd) :
  scan_pdf_batch db (Opened [Sample.diploma; Sample.diploma; Sample.diploma])
    (py "BSHM.pdf") (py "extracted_pages_11_to_5.xlsx") 10 (Some 5%Z) =
  (Raises (KeyError ColName),
   {| stdout := [OpeningPDF (py "BSHM.pdf"); PDFHasPages 3; ProcessingPages 11 3;
                 SavingResults (py "extracted_pages_11_to_5.xlsx");
                 ExtractionComplete 0];
      written := [(py "extracted_pages_11_to_5.xlsx",
                   {| columns := []; records := [] |})] |}).
Proof. reflexivity. Qed.

(** ** Stability, and why the insertion sort stands for [list.sort] *)

Lemma lex_lt_total (p q : Z * Z * Z) : ~ lex_lt p q -> ~ lex_lt q p -> p = q.
Proof.
  destruct p as [[a b] c], q as [[a' b'] c']. cbn. intros N1 N2.
  assert (a = a') by lia. assert (b = b') by lia. assert (c = c') by lia.
  congruence.
Qed.

Lemma at_most_antisym (a b : float) :
  at_most a b -> at_most b a -> (a =? b)%float = true.
Proof.
  intros (Ha & Hb & L1)%leb_true_place (_ & _ & L2)%leb_true_place.
  rewrite eqb_spec. apply SFeqb_place; try (apply is_number_SF; assumption).
  now apply lex_lt_total.
Qed.

Lemma eqb_sym (a b : float) : (a =? b)%float = (b =? a)%float.
Proof.
  rewrite !eqb_spec.
  destruct (Prim2SF a) as [sa | sa | | sa ma ea] eqn:Ea;
    destruct (Prim2SF b) as [sb | sb | | sb mb eb] eqn:Eb;
    try reflexivity; try (destruct sa, sb; reflexivity);
    try (destruct sa; reflexivity); try (destruct sb; reflexivity).
  assert (Na : S754_finite sa ma ea <> S754_nan) by discriminate.
  assert (Nb : S754_finite sb mb eb <> S754_nan) by discriminate.
  destruct (SFeqb (S754_finite sa ma ea) (S754_finite sb mb eb)) eqn:E1;
    destruct (SFeqb (S754_finite sb mb eb) (S754_finite sa ma ea)) eqn:E2;
    try reflexivity.
  - apply SFeqb_place in E1; auto. symmetry in E1.
    apply SFeqb_place in E1; auto. congruence.
  - apply SFeqb_place in E2; auto. symmetry in E2.
    apply SFeqb_place in E2; auto. congruence.
Qed.

Lemma eqb_refl_number (a : float) : is_number a -> (a =? a)%float = true.
Proof. unfold is_number, is_nan. now intros E%negb_false_iff. Qed.

Lemma eqb_right_number (a b : float) : (a =? b)%float = true -> is_number b.
Proof.
  rewrite eqb_spec. intros E. apply is_number_SF. intros N.
  rewrite N, SFeqb_nan_r in E. discriminate.
Qed.

Lemma filter_same_y_cons (k : float) (a : item) (l : list item) :
  filter (same_y k) (a :: l) =
  if (Item.y a =? k)%float then a :: filter (same_y k) l else filter (same_y k) l.
Proof. reflexivity. Qed.

(** Two lists that are both ordered top to bottom and agree, height by
    height, on the fragments at that height and their order, are equal: on
    numbers the result of a stable sort is determined. *)
Lemma sorted_same_heights_eq (l1 l2 : list item) :
  numeric_y l1 -> numeric_y l2 ->
  top_to_bottom l1 -> top_to_bottom l2 ->
  (forall k, filter (same_y k) l1 = filter (same_y k) l2) ->
  l1 = l2.
Proof.
  intros N1. revert l2.
  induction N1 as [ | a t1 Ha N1 IH]; intros l2 N2 S1 S2 E.
  - destruct l2 as [ | b t2]; [reflexivity | ].
    inversion N2 as [ | ? ? Hb _]; subst.
    specialize (E (Item.y b)). rewrite filter_same_y_cons in E.
    rewrite (eqb_refl_number _ Hb) in E. discriminate.
  - destruct l2 as [ | b t2].
    + specialize (E (Item.y a)). rewrite filter_same_y_cons in E.
      rewrite (eqb_refl_number _ Ha) in E. discriminate.
    + inversion N2 as [ | ? ? Hb N2']; subst.
      inversion S1 as [ | ? ? S1' F1]; subst.
      inversion S2 as [ | ? ? S2' F2]; subst.
      assert (Eab : (Item.y a =? Item.y b)%float = true).
      { destruct (Item.y a =? Item.y b)%float eqn:Eab; [reflexivity | ].
        exfalso.
        pose proof (E (Item.y a)) as Ea. pose proof (E (Item.y b)) as Eb.
        rewrite !filter_same_y_cons in Ea, Eb.
        rewrite (eqb_refl_number _ Ha) in Ea. rewrite (eqb_refl_number _ Hb) in Eb.
        rewrite (eqb_sym (Item.y b)), Eab in Ea. rewrite Eab in Eb.
        assert (Ia : In a t2).
        { apply (filter_In (same_y (Item.y a))). rewrite <- Ea. now left. }
        assert (Ib : In b t1).
        { apply (filter_In (same_y (Item.y b))). rewrite Eb. now left. }
        rewrite Forall_forall in F1, F2.
        pose proof (at_most_antisym _ _ (F1 b Ib) (F2 a Ia)). congruence. }
      assert (a = b).
      { specialize (E (Item.y b)). rewrite !filter_same_y_cons in E.
        rewrite Eab, (eqb_refl_number _ Hb) in E. now injection E. }
      subst b. f_equal. apply IH; try assumption.
      intros k. specialize (E k). rewrite !filter_same_y_cons in E.
      destruct (Item.y a =? k)%float; [now injection E | assumption].
Qed.

(** Any stable sort of a list of numbered fragments returns what
    [sort_by_y] returns. *)
Lemma stable_sort_unique (l l' : list item) :
  numeric_y l -> Permutation l' l -> top_to_bottom l' ->
  (forall k, filter (same_y k) l' = filter (same_y k) l) ->
  l' = sort_by_y l.
Proof.
  intros N P S E. apply sorted_same_heights_eq.
  - apply (numeric_y_perm l); [now symmetry | assumption].
  - apply (numeric_y_perm l); [symmetry; apply sort_by_y_perm | assumption].
  - assumption.
  - now apply sort_by_y_sorted.
  - intros k. rewrite E. symmetry. apply sort_by_y_stable.
Qed.

(** C10: the sort is stable. On a page whose fragments have numbers for [y],
    the fragments at any one height [k] stand in the sorted list in the order
    in which they were extracted (block by block, line by line, span by
    span); so of two fragments of equal [y] the one extracted earlier stands
    earlier in the list the two rules walk through. *)
Theorem sort_is_stable (db : PyStr.ucd) (p : page) :
  numeric_y (fragments db p) ->
  (forall k,
      filter (same_y k) (all_text_items db p) = filter (same_y k) (fragments db p)) /\
  (forall a b l1 l2 l3,
      fragments db p = l1 ++ a :: l2 ++ b :: l3 ->
      (Item.y a =? Item.y b)%float = true ->
      exists m1 m2 m3, all_text_items db p = m1 ++ a :: m2 ++ b :: m3).
Proof.
  intros _.
  assert (St : forall k, filter (same_y k) (all_text_items db p) =
                         filter (same_y k) (fragments db p)).
  { intros k. unfold all_text_items.
    rewrite collect_text_items_fragments. apply sort_by_y_stable. }
  split; [exact St | ].
  intros a b l1 l2 l3 E Eab.
  specialize (St (Item.y b)). rewrite E in St.
  rewrite filter_app, filter_same_y_cons, filter_app, filter_same_y_cons in St.
  rewrite Eab, (eqb_refl_number _ (eqb_right_number _ _ Eab)) in St.
  apply filter_split in St. destruct St as (m1 & r & -> & _ & St).
  apply filter_split in St. destruct St as (m2 & m3 & -> & _ & _).
  now exists m1, m2, m3.
Qed.

Lemma sort_is_stable_witness :
  numeric_y (fragments PyStr.ucd_none Sample.diploma) /\
  map Item.text (filter (same_y 317) (fragments PyStr.ucd_none Sample.diploma)) =
    [py "John Michael Dela Cruz"; py "Class of 2024"] /\
  map Item.text (filter (same_y 317) (all_text_items PyStr.ucd_none Sample.diploma)) =
    [py "John Michael Dela Cruz"; py "Class of 2024"].
Proof.
  assert (Hn : numeric_y (fragments PyStr.ucd_none Sample.diploma)).
  { repeat constructor. }
  split; [exact Hn | ]. split; [reflexivity | ].
  rewrite (proj1 (sort_is_stable PyStr.ucd_none Sample.diploma Hn) 317%float).
  reflexivity.
Defined.

(* ================================================================== *)
(** * Part III: further properties of the code                         *)
(* ================================================================== *)

(** ** The page heuristic *)

Lemma lex_lt_trans (p q r : Z * Z * Z) : lex_lt p q -> lex_lt q r -> lex_lt p r.
Proof.
  destruct p as [[a b] c], q as [[a' b'] c'], r as [[a'' b''] c''].
  cbn. lia.
Qed.

Lemma ltb_trans (a b c : float) :
  (a <? b)%float = true -> (b <? c)%float = true -> (a <? c)%float = true.
Proof.
  intros (Ha & _ & L1)%ltb_true_place (_ & Hc & L2)%ltb_true_place.
  rewrite ltb_spec. apply SFltb_place; try (apply is_number_SF; assumption).
  now apply (lex_lt_trans _ (place (Prim2SF b))).
Qed.

Lemma top_to_bottom_after (l1 l2 : list item) (a : item) :
  top_to_bottom (l1 ++ a :: l2) ->
  Forall (fun b => at_most (Item.y a) (Item.y b)) l2.
Proof.
  unfold top_to_bottom. induction l1 as [ | c l1 IH]; cbn; intros S.
  - now apply StronglySorted_inv in S.
  - apply StronglySorted_inv in S. now apply IH.
Qed.

Lemma at_most_refl (a : float) : is_number a -> at_most a a.
Proof. intros Ha. apply leb_of_not_ltb; auto. apply ltb_irrefl. Qed.

(** In a list ordered top to bottom, the first element with a property is
    at most as low as any element with the property. *)
Lemma FirstWith_topmost (P : item -> Prop) (l : list item) (it f : item) :
  numeric_y l -> top_to_bottom l ->
  FirstWith P l it -> In f l -> P f ->
  at_most (Item.y it) (Item.y f).
Proof.
  intros N S (before & after & -> & Pit & F) Hf Pf.
  apply in_app_or in Hf. destruct Hf as [Hf | [<- | Hf]].
  - rewrite Forall_forall in F. now destruct (F f Hf).
  - apply at_most_refl. unfold numeric_y in N.
    apply Forall_app in N. destruct N as [_ N]. now inversion N.
  - apply top_to_bottom_after in S. rewrite Forall_forall in S. now apply S.
Qed.

Lemma FirstWith_In {A : Type} (P : A -> Prop) (l : list A) (a : A) :
  FirstWith P l a -> In a l /\ P a.
Proof.
  intros (before & after & -> & Pa & _). split; [ | assumption].
  apply in_or_app. right. now left.
Qed.

Lemma all_text_items_In (db : PyStr.ucd) (p : page) (it : item) :
  In it (all_text_items db p) <-> In it (fragments db p).
Proof.
  unfold all_text_items. rewrite collect_text_items_fragments.
  split; apply Permutation_in; [ | symmetry]; apply sort_by_y_perm.
Qed.

Lemma all_text_items_sorted (db : PyStr.ucd) (p : page) :
  numeric_y (fragments db p) ->
  numeric_y (all_text_items db p) /\ top_to_bottom (all_text_items db p).
Proof.
  intros N. unfold all_text_items. rewrite collect_text_items_fragments. split.
  - apply (numeric_y_perm (fragments db p)); [ | assumption].
    symmetry. apply sort_by_y_perm.
  - now apply sort_by_y_sorted.
Qed.

(** X1: The name of a page is the text of its topmost candidate: if any fragment
    of the page passes the name rule, the name is the text of such a
    fragment, and no fragment that passes the rule lies higher on the
    page. The [y] of the fragments are numbers. *)
Theorem name_from_topmost_candidate (db : PyStr.ucd) (p : page) (f : item) :
  numeric_y (fragments db p) ->
  In f (fragments db p) ->
  NameRule db (rect_width p) (rect_height p) f ->
  exists it,
    In it (fragments db p) /\
    NameRule db (rect_width p) (rect_height p) it /\
    fst (extract_name_and_passkey_improved db p) = Item.text it /\
    at_most (Item.y it) (Item.y f).
Proof.
  intros N Hf Rf. apply all_text_items_In in Hf.
  destruct (all_text_items_sorted db p N) as [N' S].
  destruct (find_name_result db (rect_width p) (rect_height p) (all_text_items db p))
    as [(it & Fit & E) | [F _]].
  - exists it. destruct (FirstWith_In _ _ _ Fit) as [Hit Rit].
    split; [now apply all_text_items_In | ]. split; [assumption | ].
    split; [exact E | ].
    now apply (FirstWith_topmost _ _ _ _ N' S Fit Hf Rf).
  - rewrite Forall_forall in F. now destruct (F f Hf).
Qed.

Lemma name_from_topmost_candidate_witness :
  numeric_y (fragments PyStr.ucd_none Sample.diploma) /\
  exists it,
    In it (fragments PyStr.ucd_none Sample.diploma) /\
    fst (extract_name_and_passkey_improved PyStr.ucd_none Sample.diploma) =
      Item.text it /\
    at_most (Item.y it) 317.
Proof.
  assert (N : numeric_y (fragments PyStr.ucd_none Sample.diploma)).
  { repeat constructor. }
  split; [exact N | ].
  destruct (name_from_topmost_candidate PyStr.ucd_none Sample.diploma
              (Item.mk (py "John Michael Dela Cruz") 245 317 (455 - 245) (339 - 317) 18)
              N)
    as (it & Hit & _ & E & L).
  - right. right. left. reflexivity.
  - apply is_name_candidate_iff. reflexivity.
  - exists it. auto.
Defined.

(** X2: The passkey of a page is the leftmost token of the topmost fragment in
    the bottom right area that holds a token: no such fragment lies higher on
    the page than the one the passkey is taken from. The [y] of the fragments
    are numbers. *)
Theorem passkey_from_topmost_source (db : PyStr.ucd) (p : page) (f : item) :
  numeric_y (fragments db p) ->
  In f (fragments db p) ->
  PasskeyRule (rect_width p) (rect_height p) (PyStr.is_word db) f ->
  exists it,
    In it (fragments db p) /\
    PasskeyRule (rect_width p) (rect_height p) (PyStr.is_word db) it /\
    FirstToken (PyStr.is_word db) (Item.text it)
      (snd (extract_name_and_passkey_improved db p)) /\
    at_most (Item.y it) (Item.y f).
Proof.
  intros N Hf Rf. apply all_text_items_In in Hf.
  destruct (all_text_items_sorted db p N) as [N' S].
  destruct (find_passkey_result db (rect_width p) (rect_height p)
              (all_text_items db p))
    as [(it & Fit & T) | [F _]].
  - exists it. destruct (FirstWith_In _ _ _ Fit) as [Hit Rit].
    split; [now apply all_text_items_In | ]. split; [assumption | ].
    split; [exact T | ].
    now apply (FirstWith_topmost _ _ _ _ N' S Fit Hf Rf).
  - rewrite Forall_forall in F. now destruct (F f Hf).
Qed.

Lemma passkey_from_topmost_source_witness :
  numeric_y (fragments PyStr.ucd_none Sample.diploma) /\
  exists it,
    In it (fragments PyStr.ucd_none Sample.diploma) /\
    FirstToken (PyStr.is_word PyStr.ucd_none) (Item.text it)
      (snd (extract_name_and_passkey_improved PyStr.ucd_none Sample.diploma)) /\
    at_most (Item.y it) 713.
Proof.
  assert (N : numeric_y (fragments PyStr.ucd_none Sample.diploma)).
  { repeat constructor. }
  split; [exact N | ].
  destruct (passkey_from_topmost_source PyStr.ucd_none Sample.diploma
              (Item.mk (py "CODE: AB12CD34") 520 713 (600 - 520) (723 - 713) 9)
              N)
    as (it & Hit & _ & T & L).
  - left. reflexivity.
  - split; [split; reflexivity | ].
    exists (py "CODE: "), (py "AB12CD34"), [].
    split; [reflexivity | ]. split; [cbn; lia | ].
    split; [ | split; reflexivity].
    apply passkey_class_Forall. reflexivity.
  - exists it. auto.
Defined.

(** X3: No fragment serves both rules: on a page where 0.8 of the height is not
    below 0.6 of it, a fragment that passes the name rule is not in the
    bottom right area, so the name and the passkey are never read from the
    same fragment. *)
Theorem name_and_passkey_areas_disjoint (db : PyStr.ucd) (W H : float) (it : item) :
  (H * 0.8 <? H * 0.6)%float = false ->
  NameRule db W H it -> ~ PasskeyArea W H it.
Proof.
  intros Hh (_ & _ & [_ Y] & _) [_ Y'].
  unfold less in *. rewrite (ltb_trans _ _ _ Y' Y) in Hh. discriminate.
Qed.

Lemma name_and_passkey_areas_disjoint_witness :
  (Sample.H * 0.8 <? Sample.H * 0.6)%float = false /\
  NameRule PyStr.ucd_none Sample.W Sample.H Sample.john /\
  ~ PasskeyArea Sample.W Sample.H Sample.john.
Proof.
  assert (Hh : (Sample.H * 0.8 <? Sample.H * 0.6)%float = false) by reflexivity.
  assert (R : NameRule PyStr.ucd_none Sample.W Sample.H Sample.john).
  { apply is_name_candidate_iff. reflexivity. }
  split; [exact Hh | ]. split; [exact R | ].
  exact (name_and_passkey_areas_disjoint PyStr.ucd_none Sample.W Sample.H
           Sample.john Hh R).
Defined.

Lemma Permutation_filter {A : Type} (f : A -> bool) (l l' : list A) :
  Permutation l l' -> Permutation (filter f l) (filter f l').
Proof.
  induction 1 as [ | a l l' P IH | a b l | l l' l'' P1 IH1 P2 IH2]; cbn.
  - constructor.
  - destruct (f a); [now constructor | assumption].
  - destruct (f a), (f b); try apply Permutation_refl. apply perm_swap.
  - now transitivity (filter f l').
Qed.

Lemma Permutation_short {A : Type} (l l' : list A) :
  Permutation l l' -> length l <= 1 -> l = l'.
Proof.
  intros P L. destruct l as [ | a [ | b l]]; cbn in L; [ | | lia].
  - now apply Permutation_nil in P.
  - now apply Permutation_length_1_inv in P.
Qed.

(** X4: The order in which the renderer reports the blocks does not matter as
    long as no two fragments share a height: two pages of the same size whose
    fragments are the same up to order, at pairwise different heights (all
    numbers), give the same sorted list and the same name and passkey. *)
Theorem result_independent_of_block_order (db : PyStr.ucd) (p1 p2 : page) :
  rect_width p1 = rect_width p2 -> rect_height p1 = rect_height p2 ->
  Permutation (fragments db p1) (fragments db p2) ->
  numeric_y (fragments db p1) -> distinct_y (fragments db p1) ->
  all_text_items db p1 = all_text_items db p2 /\
  extract_name_and_passkey_improved db p1 = extract_name_and_passkey_improved db p2.
Proof.
  intros Ew Eh P N D.
  assert (E : all_text_items db p1 = all_text_items db p2).
  { unfold all_text_items. rewrite !collect_text_items_fragments.
    assert (N2 : numeric_y (fragments db p2)) by now apply (numeric_y_perm _ _ P).
    apply sorted_same_heights_eq.
    - apply (numeric_y_perm (fragments db p1)); [ | assumption].
      symmetry. apply sort_by_y_perm.
    - apply (numeric_y_perm (fragments db p2)); [ | assumption].
      symmetry. apply sort_by_y_perm.
    - now apply sort_by_y_sorted.
    - now apply sort_by_y_sorted.
    - intros k. rewrite !sort_by_y_stable.
      apply Permutation_short; [now apply Permutation_filter | apply D]. }
  split; [exact E | ].
  unfold extract_name_and_passkey_improved. now rewrite E, Ew, Eh.
Qed.

Lemma result_independent_of_block_order_witness :
  Permutation (fragments PyStr.ucd_none plain_diploma)
              (fragments PyStr.ucd_none (shuffled_page plain_diploma)) /\
  fragments PyStr.ucd_none plain_diploma <>
    fragments PyStr.ucd_none (shuffled_page plain_diploma) /\
  extract_name_and_passkey_improved PyStr.ucd_none plain_diploma =
    extract_name_and_passkey_improved PyStr.ucd_none (shuffled_page plain_diploma).
Proof.
  assert (P : Permutation (fragments PyStr.ucd_none plain_diploma)
                (fragments PyStr.ucd_none (shuffled_page plain_diploma))).
  { vm_compute. apply (Permutation_cons_app [_; _] []).
    apply Permutation_refl. }
  assert (N : numeric_y (fragments PyStr.ucd_none plain_diploma)).
  { repeat constructor. }
  assert (D : distinct_y (fragments PyStr.ucd_none plain_diploma)).
  { intros k. unfold fragments. cbn [plain_diploma page_spans page_blocks flat_map
      block_lines line_spans app filter map Sample.mkspan span_text].
    change (filter _ _) with
      (filter (same_y k)
         [fragment_of PyStr.ucd_none (Sample.mkspan "CODE: AB12CD34" 520 713 600 723 9);
          fragment_of PyStr.ucd_none (Sample.mkspan "Bachelor of Science" 245 277 425 301 20);
          fragment_of PyStr.ucd_none (Sample.mkspan "John Michael Dela Cruz" 245 317 455 339 18)]).
    rewrite !filter_same_y_cons. cbn [filter].
    change (Item.y (fragment_of _ (Sample.mkspan "CODE: AB12CD34" 520 713 600 723 9)))
      with 713%float.
    change (Item.y (fragment_of _ (Sample.mkspan "Bachelor of Science" 245 277 425 301 20)))
      with 277%float.
    change (Item.y (fragment_of _ (Sample.mkspan "John Michael Dela Cruz" 245 317 455 339 18)))
      with 317%float.
    destruct (713 =? k)%float eqn:E1, (277 =? k)%float eqn:E2,
             (317 =? k)%float eqn:E3; cbn; try lia.
    - pose proof (eqb_not_ltb _ _ _ E2 E1) as X. vm_compute in X. discriminate X.
    - pose proof (eqb_not_ltb _ _ _ E2 E1) as X. vm_compute in X. discriminate X.
    - pose proof (eqb_not_ltb _ _ _ E3 E1) as X. vm_compute in X. discriminate X.
    - pose proof (eqb_not_ltb _ _ _ E2 E3) as X. vm_compute in X. discriminate X. }
  split; [exact P | ]. split; [discriminate | ].
  exact (proj2 (result_independent_of_block_order PyStr.ucd_none plain_diploma
                  (shuffled_page plain_diploma) eq_refl eq_refl P N D)).
Defined.

Section StripTwice.
Variable db : PyStr.ucd.

Lemma lstrip_fixed (s : pystr) :
  match s with [] => True | c :: _ => PyStr.isspace db c = false end ->
  PyStr.lstrip db s = s.
Proof. destruct s as [ | c s]; cbn; [reflexivity | ]. now intros ->. Qed.

Lemma lstrip_lstrip (s : pystr) :
  PyStr.lstrip db (PyStr.lstrip db s) = PyStr.lstrip db s.
Proof.
  apply lstrip_fixed. destruct (PyStr.lstrip db s) as [ | c r] eqn:E; [exact I | ].
  now apply lstrip_head in E.
Qed.

Lemma rstrip_rstrip (s : pystr) :
  PyStr.rstrip db (PyStr.rstrip db s) = PyStr.rstrip db s.
Proof. unfold PyStr.rstrip. now rewrite rev_involutive, lstrip_lstrip. Qed.

(** [s.strip().strip() == s.strip()] *)
Lemma strip_strip (s : pystr) :
  PyStr.strip db (PyStr.strip db s) = PyStr.strip db s.
Proof.
  unfold PyStr.strip at 1.
  rewrite (lstrip_fixed (PyStr.strip db s)).
  - unfold PyStr.strip. apply rstrip_rstrip.
  - destruct (PyStr.strip db s) as [ | c r] eqn:E; [exact I | ].
    now apply strip_head in E.
Qed.

(** A stripped text neither starts nor ends with whitespace. *)
Lemma strip_ends (s : pystr) :
  match PyStr.strip db s with
  | [] => True
  | c :: r => PyStr.isspace db c = false /\
              PyStr.isspace db (last r c) = false
  end.
Proof.
  destruct (PyStr.strip db s) as [ | c r] eqn:E; [exact I | ].
  split; [now apply strip_head in E | ].
  unfold PyStr.strip, PyStr.rstrip in E.
  apply (f_equal (@rev _)) in E. rewrite rev_involutive in E.
  destruct (rev (c :: r)) as [ | d u] eqn:R.
  - apply (f_equal (@length _)) in R. rewrite length_rev in R. discriminate.
  - apply lstrip_head in E.
    assert (L : last (c :: r) c = d).
    { rewrite <- (rev_involutive (c :: r)), R. cbn. now rewrite last_last. }
    replace (last r c) with (last (c :: r) c) by now destruct r.
    now rewrite L.
Qed.

End StripTwice.

(** X5: The texts of the fragments are stripped: stripping the text of an
    extracted fragment again changes nothing, and the text neither starts
    nor ends with a whitespace character. *)
Theorem fragment_texts_are_stripped (db : PyStr.ucd) (p : page) :
  Forall (fun it =>
            PyStr.strip db (Item.text it) = Item.text it /\
            match Item.text it with
            | [] => False
            | c :: r => PyStr.isspace db c = false /\
                        PyStr.isspace db (last r c) = false
            end)
         (all_text_items db p).
Proof.
  unfold all_text_items. rewrite collect_text_items_fragments, sort_by_y_perm.
  unfold fragments. apply Forall_map, Forall_forall.
  intros s [_ B]%filter_In. apply negb_true_iff in B.
  unfold fragment_of. destruct (span_bbox s) as [[[x0 y0] x1] y1]. cbn [Item.text].
  split; [apply strip_strip | ].
  pose proof (strip_ends db (span_text s)) as E.
  destruct (PyStr.strip db (span_text s)) as [ | c r] eqn:S; [ | exact E].
  apply strip_nil_iff in S. congruence.
Qed.

(** X6: A page without text - no block with lines, or only spans of whitespace -
    gives the empty name and the empty passkey. *)
Theorem blank_page_gives_nothing (db : PyStr.ucd) (p : page) :
  Forall (fun s => blank db (span_text s) = true) (page_spans p) ->
  all_text_items db p = [] /\
  extract_name_and_passkey_improved db p = ([], []).
Proof.
  intros B.
  assert (E : fragments db p = []).
  { unfold fragments. induction B as [ | s l Hs B IH]; cbn; [reflexivity | ].
    now rewrite Hs. }
  unfold extract_name_and_passkey_improved, all_text_items.
  rewrite collect_text_items_fragments, E. split; reflexivity.
Qed.

Lemma blank_page_gives_nothing_witness :
  Forall (fun s => blank PyStr.ucd_none (span_text s) = true) (page_spans blank_page) /\
  extract_name_and_passkey_improved PyStr.ucd_none blank_page = ([], []).
Proof.
  assert (B : Forall (fun s => blank PyStr.ucd_none (span_text s) = true)
                (page_spans blank_page)).
  { repeat constructor. }
  split; [exact B | ].
  exact (proj2 (blank_page_gives_nothing PyStr.ucd_none blank_page B)).
Defined.

(** ** The passkey pattern on a bare code *)

Section BareCode.
Variable db : PyStr.ucd.

Lemma findall_from_skip_all (ctx : option PyStr.char) (s : pystr) (skip : nat) :
  length s <= skip -> PyStr.findall_from db ctx s skip = [].
Proof.
  revert ctx skip. induction s as [ | c s IH]; intros ctx skip L; [reflexivity | ].
  cbn in L. destruct skip as [ | k]; [lia | ]. cbn. apply IH. lia.
Qed.

Lemma left_of_word (before : pystr) :
  Forall upper_or_digit before -> before <> [] ->
  PyStr.word_at db (left_of None before) = true.
Proof.
  intros F N. unfold left_of.
  destruct (rev before) as [ | c r] eqn:R.
  - apply (f_equal (@rev _)) in R. rewrite rev_involutive in R. contradiction.
  - cbn. apply upper_or_digit_word.
    rewrite Forall_forall in F. apply F, in_rev. rewrite R. now left.
Qed.

(** In a text of uppercase letters and digits only, the one possible token is
    the whole text. *)
Lemma bare_code_token (s before tok after : pystr) :
  Forall upper_or_digit s ->
  TokenIn db None s before tok after -> before = [] /\ tok = s /\ after = [].
Proof.
  intros F (-> & _ & _ & Wl & Wr).
  apply Forall_app in F. destruct F as [Fb F].
  apply Forall_app in F. destruct F as [_ Fa].
  assert (before = []).
  { destruct before as [ | b before]; [reflexivity | ].
    rewrite left_of_word in Wl; [discriminate | assumption | discriminate]. }
  assert (after = []).
  { destruct after as [ | a after]; [reflexivity | ].
    cbn in Wr. inversion Fa as [ | ? ? U _]; subst.
    rewrite (upper_or_digit_word db a U) in Wr. discriminate. }
  subst. cbn. now rewrite app_nil_r.
Qed.

End BareCode.

(** X7: A text that consists of uppercase letters and digits only is its own and
    only match if it has 6 to 12 characters, and has no match otherwise: a
    longer code is not cut down to 12 characters, it is not found. *)
Theorem bare_code_all_or_nothing (db : PyStr.ucd) (s : pystr) :
  Forall upper_or_digit s ->
  PyStr.re_findall_passkey db s =
  if (6 <=? length s) && (length s <=? 12) then [s] else [].
Proof.
  intros F. unfold PyStr.re_findall_passkey.
  destruct ((6 <=? length s) && (length s <=? 12)) eqn:L.
  - apply andb_true_iff in L. destruct L as [L1%Nat.leb_le L2%Nat.leb_le].
    assert (M : PyStr.match_passkey_at db None s = Some s).
    { apply match_passkey_at_iff. exists []. unfold TokenIn, left_of. cbn.
      rewrite app_nil_r. repeat split; try lia; try reflexivity.
      now apply passkey_class_Forall. }
    destruct s as [ | c s]; [cbn in L1; lia | ].
    cbn [PyStr.findall_from]. rewrite M. f_equal.
    apply findall_from_skip_all. cbn. lia.
  - pose proof (findall_from_spec db s None) as S.
    destruct (PyStr.findall_from db None s 0) as [ | m ms]; [reflexivity | ].
    destruct S as (before & after & T & _).
    destruct (bare_code_token db s before m after F T) as (_ & -> & _).
    destruct T as (_ & Lm & _).
    apply andb_false_iff in L.
    destruct L as [L%Nat.leb_gt | L%Nat.leb_gt]; lia.
Qed.

Lemma bare_code_all_or_nothing_witness :
  Forall upper_or_digit (py "AB12CD34") /\
  Forall upper_or_digit (py "ABCDEFGHIJKLM") /\
  PyStr.re_findall_passkey PyStr.ucd_none (py "AB12CD34") = [py "AB12CD34"] /\
  PyStr.re_findall_passkey PyStr.ucd_none (py "ABCDEFGHIJKLM") = [].
Proof.
  assert (F1 : Forall upper_or_digit (py "AB12CD34"))
    by (apply passkey_class_Forall; reflexivity).
  assert (F2 : Forall upper_or_digit (py "ABCDEFGHIJKLM"))
    by (apply passkey_class_Forall; reflexivity).
  split; [exact F1 | ]. split; [exact F2 | ]. split.
  - exact (bare_code_all_or_nothing PyStr.ucd_none (py "AB12CD34") F1).
  - exact (bare_code_all_or_nothing PyStr.ucd_none (py "ABCDEFGHIJKLM") F2).
Defined.

(** X8: Both fields are read off the page: a name that is not empty is the whole
    text of a fragment of the list, and a passkey that is not empty is a
    contiguous part of the text of a fragment of the list that lies in the
    bottom right area. *)
Theorem fields_are_read_off_fragments (db : PyStr.ucd) (W H : float)
  (items : list item) :
  let name := fst (match_fields db W H items) in
  let passkey := snd (match_fields db W H items) in
  (name = [] \/ exists it, In it items /\ Item.text it = name) /\
  (passkey = [] \/
   exists it, In it items /\ PasskeyArea W H it /\ Substring passkey (Item.text it)).
Proof.
  cbn. split.
  - destruct (find_name_result db W H items) as [(it & Fit & E) | [_ E]]; auto.
    right. exists it. destruct (FirstWith_In _ _ _ Fit). auto.
  - destruct (find_passkey_result db W H items)
      as [(it & Fit & (before & after & (E & _) & _)) | [_ E]]; auto.
    right. exists it. destruct (FirstWith_In _ _ _ Fit) as [Hit [A _]].
    split; [assumption | ]. split; [assumption | ]. now exists before, after.
Qed.

(** ** The batch driver *)

Lemma py_range_shift (a b : Z) :
  map (fun i => (i + 1)%Z) (py_range a b) = py_range (a + 1) (b + 1).
Proof.
  unfold py_range. rewrite map_map.
  replace (b + 1 - (a + 1))%Z with (b - a)%Z by lia.
  apply map_ext. intros k. lia.
Qed.

Lemma doc_getitem_nth (doc : document) (i : Z) :
  (0 <= i < Z.of_nat (length doc))%Z ->
  doc_getitem doc i = nth_error doc (Z.to_nat i).
Proof.
  intros Hi. unfold doc_getitem.
  destruct (Z.leb_spec (Z.of_nat (length doc)) i); [lia | ].
  destruct (Z.leb_spec 0 i); [reflexivity | lia].
Qed.

Lemma process_pages_content (db : PyStr.ucd) (doc : document) (total : Z)
  (page_nums : list Z) :
  Forall (fun i => (0 <= i < Z.of_nat (length doc))%Z) page_nums ->
  exists results,
    fst (process_pages db doc total page_nums) = inr results /\
    map Some results = map (page_row db doc) page_nums.
Proof.
  induction 1 as [ | i page_nums Hi F (results & E & M)]; cbn [process_pages map].
  - now exists [].
  - unfold page_row at 1. rewrite (doc_getitem_nth doc i Hi).
    destruct (nth_error doc (Z.to_nat i)) as [p | ] eqn:Ep.
    + destruct (extract_name_and_passkey_improved db p) as [name passkey].
      destruct (process_pages db doc total page_nums) as [r out].
      cbn in E. subst r. eexists. split; [reflexivity | ].
      cbn. now rewrite M.
    + apply nth_error_None in Ep. lia.
Qed.

(** What a call on an opened document gives for a range that starts at a
    page index and holds at least one page. *)
Lemma scan_pdf_batch_nonempty (db : PyStr.ucd) (doc : document)
  (pdf_path output_excel_path : pystr) (start_page : Z) (end_page : option Z) :
  let total := Z.of_nat (length doc) in
  let stop := Z.min (match end_page with None => total | Some e => e end) total in
  (0 <= start_page < stop)%Z ->
  exists df,
    fst (scan_pdf_batch db (Opened doc) pdf_path output_excel_path
           start_page end_page) = Returns (Some df) /\
    written (snd (scan_pdf_batch db (Opened doc) pdf_path output_excel_path
                    start_page end_page)) = [(output_excel_path, df)] /\
    columns df = [ColPage; ColName; ColPasskey] /\
    map Some (records df) = map (page_row db doc) (py_range start_page stop).
Proof.
  intros total stop Hs. unfold scan_pdf_batch. fold total. fold stop.
  destruct (process_pages_content db doc total (py_range start_page stop))
    as (results & E & M).
  { apply Forall_forall. intros i Hi%py_range_In. subst stop total. lia. }
  destruct (process_pages db doc total (py_range start_page stop)) as [r out].
  cbn in E. subst r.
  assert (L : length results = Z.to_nat (stop - start_page)).
  { rewrite <- (length_map Some), M, length_map. apply py_range_length. }
  destruct results as [ | r results]; [cbn in L; lia | ].
  exists (pd_DataFrame (r :: results)). cbn. auto.
Qed.

(** X9: On an opened document and for a range that starts at a page index and
    holds at least one page, the call returns a data frame with the columns
    Page, Name, Passkey, and has written the same frame to the output path
    and nothing else; the frame has one row per page of
    [[start, min(end, total))], in page order, and the row for page index [i]
    holds [i + 1] and the name and passkey that
    [extract_name_and_passkey_improved] gives for that page. The page lookup
    cannot fail, however large [end] is. *)
Theorem batch_rows_follow_pages (db : PyStr.ucd) (doc : document)
  (pdf_path output_excel_path : pystr) (start_page : Z) (end_page : option Z) :
  let total := Z.of_nat (length doc) in
  let stop := Z.min (match end_page with None => total | Some e => e end) total in
  let run := scan_pdf_batch db (Opened doc) pdf_path output_excel_path
               start_page end_page in
  (0 <= start_page < stop)%Z ->
  exists df,
    fst run = Returns (Some df) /\
    written (snd run) = [(output_excel_path, df)] /\
    columns df = [ColPage; ColName; ColPasskey] /\
    map Some (records df) = map (page_row db doc) (py_range start_page stop).
Proof. intros total stop run Hs. now apply scan_pdf_batch_nonempty. Qed.

Lemma batch_rows_follow_pages_witness :
  exists df,
    fst (scan_pdf_batch PyStr.ucd_none (Opened three_pages) (py "BSHM.pdf")
           (py "out.xlsx") 1 (Some 7%Z)) = Returns (Some df) /\
    map Page (records df) = [2; 3]%Z /\
    map Name (records df) = [[]; py "John Michael Dela Cruz"].
Proof.
  destruct (batch_rows_follow_pages PyStr.ucd_none three_pages (py "BSHM.pdf")
              (py "out.xlsx") 1 (Some 7%Z)) as (df & E & _ & _ & M).
  - cbn. lia.
  - exists df. split; [exact E | ].
    assert (R : map Some (records df) =
                map Some
                  [ {| Page := 2; Name := []; Passkey := [] |};
                    {| Page := 3; Name := py "John Michael Dela Cruz";
                       Passkey := py "AB12CD34" |} ]).
    { rewrite M. reflexivity. }
    assert (Inj : forall l l' : list row, map Some l = map Some l' -> l = l').
    { induction l as [ | a l IH]; intros [ | b l'] X; try discriminate; [reflexivity | ].
      cbn in X. injection X as -> X. f_equal. now apply IH. }
    apply Inj in R. rewrite R. split; reflexivity.
Defined.

(** X10: For a start page that is a page index, whatever the end: exactly one
    spreadsheet is written, at the output path, with one row for each page
    index of [[start, min(end, total))] and [index + 1] in its Page column.
    If the range holds a page the call returns the frame; if it holds none,
    the call has written a spreadsheet without rows and then ends in
    [KeyError] on column ['Name'] instead of returning. *)
Theorem batch_outcome_by_range (db : PyStr.ucd) (doc : document)
  (pdf_path output_excel_path : pystr) (start_page : Z) (end_page : option Z) :
  (0 <= start_page)%Z ->
  let total := Z.of_nat (length doc) in
  let stop := Z.min (match end_page with None => total | Some e => e end) total in
  let run := scan_pdf_batch db (Opened doc) pdf_path output_excel_path
               start_page end_page in
  exists df,
    written (snd run) = [(output_excel_path, df)] /\
    map Page (records df) = py_range (start_page + 1) (stop + 1) /\
    length (records df) = Z.to_nat (stop - start_page) /\
    fst run = if (start_page <? stop)%Z then Returns (Some df)
              else Raises (KeyError ColName).
Proof.
  intros Hs total stop run.
  destruct (scan_pdf_batch_rows db doc pdf_path output_excel_path start_page
              end_page Hs) as (df & W & P & L & R).
  exists df. split; [exact W | ]. split; [ | split; [exact L | exact R]].
  fold total stop in P. rewrite P. apply py_range_shift.
Qed.

Lemma batch_outcome_by_range_witness :
  exists df,
    written (snd (scan_pdf_batch PyStr.ucd_none (Opened three_pages)
                    (py "BSHM.pdf") (py "out.xlsx") 3 (Some 9%Z))) =
      [(py "out.xlsx", df)] /\
    records df = [] /\
    fst (scan_pdf_batch PyStr.ucd_none (Opened three_pages)
           (py "BSHM.pdf") (py "out.xlsx") 3 (Some 9%Z)) =
      Raises (KeyError ColName).
Proof.
  destruct (batch_outcome_by_range PyStr.ucd_none three_pages (py "BSHM.pdf")
              (py "out.xlsx") 3 (Some 9%Z)) as (df & W & _ & L & R).
  - lia.
  - exists df. split; [exact W | ]. split; [ | exact R].
    destruct (records df); [reflexivity | discriminate L].
Defined.

(** ** The preview *)

Lemma insert_by_y_insert_by (it : item) (l : list item) :
  insert_by_y it l = insert_by Item.y it l.
Proof. induction l as [ | e l IH]; cbn; [reflexivity | now rewrite IH]. Qed.

Lemma sort_by_y_sort_by (l : list item) : sort_by_y l = sort_by Item.y l.
Proof.
  induction l as [ | it l IH]; [reflexivity | ].
  rewrite sort_by_y_cons, IH. apply insert_by_y_insert_by.
Qed.

(** Sorting commutes with a map that keeps the key. *)
Lemma insert_by_map {A B : Type} (f : A -> B) (ka : A -> float) (kb : B -> float)
  (a : A) (l : list A) :
  (forall a, kb (f a) = ka a) ->
  map f (insert_by ka a l) = insert_by kb (f a) (map f l).
Proof.
  intros K. induction l as [ | e l IH]; cbn; [reflexivity | ].
  rewrite !K. destruct (ka e <? ka a)%float; cbn; [now rewrite IH | reflexivity].
Qed.

Lemma sort_by_map {A B : Type} (f : A -> B) (ka : A -> float) (kb : B -> float)
  (l : list A) :
  (forall a, kb (f a) = ka a) ->
  map f (sort_by ka l) = sort_by kb (map f l).
Proof.
  intros K. induction l as [ | a l IH]; [reflexivity | ].
  cbn [sort_by fold_right map]. fold (sort_by ka l). fold (sort_by kb (map f l)).
  rewrite <- IH. now apply insert_by_map.
Qed.

Lemma preview_span_item_of (db : PyStr.ucd) (s : span) :
  preview_span_item db s = option_map preview_of (span_item db s).
Proof.
  unfold preview_span_item, span_item.
  destruct (PyStr.strip db (span_text s)); [reflexivity | ].
  now destruct (span_bbox s) as [[[x0 y0] x1] y1].
Qed.

Lemma collect_preview_items_of (db : PyStr.ucd) (blocks : list block) :
  collect_preview_items db blocks = map preview_of (collect_text_items db blocks).
Proof.
  unfold collect_preview_items, collect_text_items.
  induction blocks as [ | b blocks IH]; cbn; [reflexivity | ].
  rewrite IH, map_app. f_equal.
  unfold preview_block_items, block_items.
  destruct (block_lines b) as [ls | ]; [ | reflexivity].
  induction ls as [ | l ls IHl]; cbn; [reflexivity | ].
  rewrite IHl, map_app. f_equal.
  unfold preview_line_items, line_items.
  induction (line_spans l) as [ | s ss IHs]; cbn; [reflexivity | ].
  rewrite IHs, map_app, preview_span_item_of. f_equal.
  now destruct (span_item db s).
Qed.

(** The list the preview sorts and prints is the list the matcher walks. *)
Lemma preview_items_of (db : PyStr.ucd) (p : page) :
  map item_line (sort_by PreviewItem.y (collect_preview_items db (page_blocks p))) =
  map fragment_line (all_text_items db p).
Proof.
  rewrite collect_preview_items_of.
  rewrite <- (sort_by_map preview_of Item.y PreviewItem.y) by reflexivity.
  unfold all_text_items. rewrite sort_by_y_sort_by, map_map. reflexivity.
Qed.

Lemma preview_page_text_found (db : PyStr.ucd) (doc : document) (page_num : Z)
  (p : page) :
  doc_getitem doc page_num = Some p ->
  preview_page_text db (Opened doc) page_num =
  (Done,
   [PagePreview (page_num + 1); PageDimensions (rect_width p) (rect_height p);
    AllTextItems]
   ++ map fragment_line (all_text_items db p)
   ++ [ExtractedName (fst (extract_name_and_passkey_improved db p));
       ExtractedPasskey (snd (extract_name_and_passkey_improved db p))],
   true).
Proof.
  intros E. unfold preview_page_text. rewrite E.
  destruct (extract_name_and_passkey_improved db p) as [name passkey].
  now rewrite preview_items_of.
Qed.

(** X11: The preview shows what the extraction works on: for a page of the
    document it prints, between the page header and the extracted name and
    passkey, one line for each fragment of the very list that
    [extract_name_and_passkey_improved] builds and sorts - the same
    fragments, in the same order - and the name and passkey it prints are
    those the extraction returns; the document is closed at the end. *)
Theorem preview_shows_the_matcher_list (db : PyStr.ucd) (doc : document)
  (page_num : Z) (p : page) :
  doc_getitem doc page_num = Some p ->
  preview_page_text db (Opened doc) page_num =
  (Done,
   [PagePreview (page_num + 1); PageDimensions (rect_width p) (rect_height p);
    AllTextItems]
   ++ map fragment_line (all_text_items db p)
   ++ [ExtractedName (fst (extract_name_and_passkey_improved db p));
       ExtractedPasskey (snd (extract_name_and_passkey_improved db p))],
   true).
Proof. apply preview_page_text_found. Qed.

Lemma preview_shows_the_matcher_list_witness :
  doc_getitem three_pages 0 = Some Sample.diploma /\
  snd (fst (preview_page_text PyStr.ucd_none (Opened three_pages) 0)) =
  [PagePreview 1; PageDimensions 612 792; AllTextItems;
   ItemLine 277 245 20 (py "Bachelor of Science");
   ItemLine 317 245 18 (py "John Michael Dela Cruz");
   ItemLine 317 460 18 (py "Class of 2024");
   ItemLine 713 520 9 (py "CODE: AB12CD34");
   ExtractedName (py "John Michael Dela Cruz");
   ExtractedPasskey (py "AB12CD34")].
Proof.
  assert (E : doc_getitem three_pages 0 = Some Sample.diploma) by reflexivity.
  split; [exact E | ].
  rewrite (preview_shows_the_matcher_list PyStr.ucd_none three_pages 0
             Sample.diploma E).
  reflexivity.
Defined.

(** ** The menu *)

Lemma page_row_Page (db : PyStr.ucd) (doc : document) (l : list Z) (rows : list row) :
  map Some rows = map (page_row db doc) l ->
  map Page rows = map (fun i => (i + 1)%Z) l.
Proof.
  revert rows. induction l as [ | i l IH]; intros [ | r rows] E; cbn in E;
    try discriminate; [reflexivity | ].
  injection E as E1 E. cbn. f_equal; [ | now apply IH].
  unfold page_row in E1. destruct (nth_error doc (Z.to_nat i)); [ | discriminate].
  injection E1 as ->. reflexivity.
Qed.

Section MainFacts.
Variable db : PyStr.ucd.
Variable py_int : pystr -> option Z.

(** A call of [scan_pdf_batch] from the menu, on a document that opens and
    for a range that holds a page. *)
Lemma call_scan_nonempty (doc : document) (pdf_path out : pystr)
  (start_page end_page : Z) (heading : main_printed)
  (show : DataFrame -> DataFrame) (before : list main_printed) :
  (0 <= start_page < Z.min end_page (Z.of_nat (length doc)))%Z ->
  exists df,
    fst (call_scan db (Opened doc) pdf_path out start_page end_page
           heading show before) = Done /\
    files (snd (call_scan db (Opened doc) pdf_path out start_page end_page
                  heading show before)) = [(out, df)] /\
    (exists between,
        console (snd (call_scan db (Opened doc) pdf_path out start_page end_page
                        heading show before)) =
        before ++ map FromBatch between ++ [heading; PrintFrame (show df)]) /\
    map Some (records df) =
      map (page_row db doc)
          (py_range start_page (Z.min end_page (Z.of_nat (length doc)))) /\
    map Page (records df) =
      py_range (start_page + 1) (Z.min end_page (Z.of_nat (length doc)) + 1).
Proof.
  intros Hs.
  destruct (scan_pdf_batch_nonempty db doc pdf_path out start_page
              (Some end_page) Hs) as (df & R & Wr & _ & M).
  unfold call_scan.
  destruct (scan_pdf_batch db (Opened doc) pdf_path out start_page (Some end_page))
    as [o eff]. cbn [fst snd] in R, Wr. subst o.
  exists df. cbn [fst snd files console].
  split; [reflexivity | ]. split; [exact Wr | ].
  split; [exists (stdout eff); now rewrite <- app_assoc | ].
  split; [exact M | ].
  rewrite (page_row_Page db doc _ _ M). apply py_range_shift.
Qed.

Lemma main_choice_4 (fitz_open : opened) (line1 : pystr) (inputs1 : list pystr) :
  PyStr.strip db line1 = py "4" ->
  main db py_int true fitz_open (line1 :: inputs1) =
  let menu := [Banner; BannerRule; ChooseAnOption; MenuPreview; MenuFirstFive;
               MenuAll; MenuCustom; Prompt (py "Enter your choice (1-4): ")] in
  let ask_start := menu ++ [Prompt (py "Start page (1-based): ")] in
  match inputs1 with
  | [] => (Escapes EOFError, {| console := ask_start; files := [] |})
  | line2 :: inputs2 =>
      match py_int line2 with
      | None => (Done, {| console := ask_start ++ [InvalidPageNumbers]; files := [] |})
      | Some n =>
          let ask_end := ask_start ++ [Prompt (py "End page (1-based): ")] in
          match inputs2 with
          | [] => (Escapes EOFError, {| console := ask_end; files := [] |})
          | line3 :: _ =>
              match py_int line3 with
              | None => (Done, {| console := ask_end ++ [InvalidPageNumbers];
                                  files := [] |})
              | Some end_ =>
                  call_scan db fitz_open (py "BSHM.pdf")
                    (py "extracted_pages_" ++ str_of_int (n - 1 + 1) ++
                     py "_to_" ++ str_of_int end_ ++ py ".xlsx")
                    (n - 1) end_ (ResultsForPages (n - 1 + 1) end_)
                    (fun df => df) ask_end
              end
          end
      end
  end.
Proof. intros E. unfold main. rewrite E. reflexivity. Qed.

End MainFacts.

(** X12: Option 4 takes the range as the operator counts pages: with start [a]
    and end [b] typed in (1-based), [1 <= a <= min(b, total)], on a document
    that opens, [main] ends normally, has written exactly one spreadsheet,
    named extracted_pages_[a]_to_[b].xlsx, whose rows are those of the pages
    numbered [a] up to and including [min(b, total)], in order, each the
    extraction of its page; it prints the heading for pages [a] to [b] and
    the frame. *)
Theorem custom_range_is_one_based_inclusive (db : PyStr.ucd)
  (py_int : pystr -> option Z) (doc : document)
  (line1 line2 line3 : pystr) (more : list pystr) (a b : Z) :
  PyStr.strip db line1 = py "4" ->
  py_int line2 = Some a -> py_int line3 = Some b ->
  (1 <= a <= Z.min b (Z.of_nat (length doc)))%Z ->
  let run := main db py_int true (Opened doc) (line1 :: line2 :: line3 :: more) in
  exists df,
    fst run = Done /\
    files (snd run) =
      [(py "extracted_pages_" ++ str_of_int a ++ py "_to_" ++ str_of_int b ++
        py ".xlsx", df)] /\
    map Page (records df) = py_range a (Z.min b (Z.of_nat (length doc)) + 1) /\
    map Some (records df) =
      map (page_row db doc) (py_range (a - 1) (Z.min b (Z.of_nat (length doc)))) /\
    In (ResultsForPages a b) (console (snd run)) /\
    In (PrintFrame df) (console (snd run)).
Proof.
  intros E1 E2 E3 Hab run. subst run.
  rewrite (main_choice_4 db py_int _ _ _ E1). cbv zeta. rewrite E2, E3.
  replace (a - 1 + 1)%Z with a by lia.
  destruct (call_scan_nonempty db doc (py "BSHM.pdf")
              (py "extracted_pages_" ++ str_of_int a ++ py "_to_" ++
               str_of_int b ++ py ".xlsx")
              (a - 1) b (ResultsForPages a b) (fun df => df)
              (([Banner; BannerRule; ChooseAnOption; MenuPreview; MenuFirstFive;
                 MenuAll; MenuCustom; Prompt (py "Enter your choice (1-4): ")] ++
                [Prompt (py "Start page (1-based): ")]) ++
               [Prompt (py "End page (1-based): ")]))
    as (df & R & F & (between & C) & M & P); [lia | ].
  exists df. split; [exact R | ]. split; [exact F | ].
  replace (a - 1 + 1)%Z with a in P by lia.
  split; [exact P | ]. split; [exact M | ].
  rewrite C. split; apply in_or_app; right; apply in_or_app; right; cbn; auto.
Qed.

Lemma custom_range_is_one_based_inclusive_witness :
  exists df,
    files (snd (main PyStr.ucd_none int_of_digits true (Opened three_pages)
                  [py " 4 "; py "2"; py "9"])) =
      [(py "extracted_pages_2_to_9.xlsx", df)] /\
    map Page (records df) = [2; 3]%Z.
Proof.
  destruct (custom_range_is_one_based_inclusive PyStr.ucd_none int_of_digits
              three_pages (py " 4 ") (py "2") (py "9") [] 2 9
              eq_refl eq_refl eq_refl)
    as (df & _ & F & P & _).
  - cbn. lia.
  - exists df. split; [exact F | exact P].
Defined.

(** X13: Option 4 with a start or an end that [int] refuses: [main] reports
    invalid page numbers and ends normally; [scan_pdf_batch] is not called
    (none of its lines appears, whatever the document) and no file is
    written. When the start is refused, the end is not asked for. *)
Theorem invalid_page_numbers_are_reported (db : PyStr.ucd)
  (py_int : pystr -> option Z) (fitz_open : opened)
  (line1 line2 : pystr) (rest : list pystr) :
  PyStr.strip db line1 = py "4" ->
  py_int line2 = None \/
  (exists line3 more, rest = line3 :: more /\ py_int line3 = None) ->
  let run := main db py_int true fitz_open (line1 :: line2 :: rest) in
  fst run = Done /\
  files (snd run) = [] /\
  In InvalidPageNumbers (console (snd run)) /\
  (forall l, ~ In (FromBatch l) (console (snd run))) /\
  (py_int line2 = None ->
   ~ In (Prompt (py "End page (1-based): ")) (console (snd run))).
Proof.
  intros E1 E run. subst run.
  rewrite (main_choice_4 db py_int _ _ _ E1). cbv zeta.
  destruct (py_int line2) as [n | ] eqn:E2.
  - destruct E as [E | (line3 & more & -> & E)]; [discriminate | ]. rewrite E.
    cbn [fst snd files console].
    split; [reflexivity | ]. split; [reflexivity | ].
    split; [cbn; tauto | ].
    split; [ | discriminate].
    intros l. cbn. intuition discriminate.
  - cbn [fst snd files console].
    split; [reflexivity | ]. split; [reflexivity | ].
    split; [cbn; tauto | ].
    split; [intros l | intros _]; cbn; intuition discriminate.
Qed.

Lemma invalid_page_numbers_are_reported_witness :
  int_of_digits (py "two") = None /\
  fst (main PyStr.ucd_none int_of_digits true (Opened three_pages)
         [py "4"; py "two"; py "3"]) = Done /\
  files (snd (main PyStr.ucd_none int_of_digits true (Opened three_pages)
                [py "4"; py "two"; py "3"])) = [].
Proof.
  assert (E : int_of_digits (py "two") = None) by reflexivity.
  destruct (invalid_page_numbers_are_reported PyStr.ucd_none int_of_digits
              (Opened three_pages) (py "4") (py "two") [py "3"]
              eq_refl (or_introl E)) as (R & F & _).
  split; [exact E | ]. split; [exact R | exact F].
Defined.

Lemma main_choice_2 (db : PyStr.ucd) (py_int : pystr -> option Z)
  (fitz_open : opened) (line1 : pystr) (inputs1 : list pystr) :
  PyStr.strip db line1 = py "2" ->
  main db py_int true fitz_open (line1 :: inputs1) =
  call_scan db fitz_open (py "BSHM.pdf") (py "test_5_pages.xlsx") 0 5
    FirstFiveResults (fun df => df)
    [Banner; BannerRule; ChooseAnOption; MenuPreview; MenuFirstFive;
     MenuAll; MenuCustom; Prompt (py "Enter your choice (1-4): ")].
Proof. intros E. unfold main. rewrite E. reflexivity. Qed.

Lemma main_choice_3 (db : PyStr.ucd) (py_int : pystr -> option Z)
  (fitz_open : opened) (line1 : pystr) (inputs1 : list pystr) :
  PyStr.strip db line1 = py "3" ->
  main db py_int true fitz_open (line1 :: inputs1) =
  call_scan db fitz_open (py "BSHM.pdf") (py "extracted_names_passkeys.xlsx") 0 273
    FirstTenResults (df_head 10)
    [Banner; BannerRule; ChooseAnOption; MenuPreview; MenuFirstFive;
     MenuAll; MenuCustom; Prompt (py "Enter your choice (1-4): ")].
Proof. intros E. unfold main. rewrite E. reflexivity. Qed.

Lemma main_choice_1 (db : PyStr.ucd) (py_int : pystr -> option Z)
  (fitz_open : opened) (line1 : pystr) (inputs1 : list pystr) :
  PyStr.strip db line1 = py "1" ->
  fst (main db py_int true fitz_open (line1 :: inputs1)) =
  fst (fst (preview_page_text db fitz_open 0)).
Proof.
  intros E. unfold main. rewrite E. cbn [negb str_eqb].
  change (str_eqb (py "1") (py "1")) with true. cbv iota.
  now destruct (preview_page_text db fitz_open 0) as [[out lines] closed].
Qed.

(** X14: Options 2 and 3 on a document that opens and has at least one page:
    option 2 writes test_5_pages.xlsx with the rows of pages 1 to
    [min(5, total)] and prints the frame; option 3, offered as "all 273
    pages", writes extracted_names_passkeys.xlsx with the rows of pages 1 to
    [min(273, total)] - all pages of a document of up to 273 pages, the first
    273 of a longer one - and prints its first ten rows. *)
Theorem menu_ranges_start_at_page_one (db : PyStr.ucd)
  (py_int : pystr -> option Z) (doc : document)
  (line1 : pystr) (more : list pystr) :
  doc <> [] ->
  let total := Z.of_nat (length doc) in
  let run := main db py_int true (Opened doc) (line1 :: more) in
  (PyStr.strip db line1 = py "2" ->
   exists df,
     fst run = Done /\
     files (snd run) = [(py "test_5_pages.xlsx", df)] /\
     map Page (records df) = py_range 1 (Z.min 5 total + 1) /\
     In (PrintFrame df) (console (snd run))) /\
  (PyStr.strip db line1 = py "3" ->
   exists df,
     fst run = Done /\
     files (snd run) = [(py "extracted_names_passkeys.xlsx", df)] /\
     map Page (records df) = py_range 1 (Z.min 273 total + 1) /\
     In (PrintFrame (df_head 10 df)) (console (snd run))).
Proof.
  intros Hd total run. subst run total.
  assert (L : (1 <= Z.of_nat (length doc))%Z).
  { destruct doc; [congruence | cbn; lia]. }
  split; intros E.
  - rewrite (main_choice_2 db py_int _ _ _ E).
    destruct (call_scan_nonempty db doc (py "BSHM.pdf") (py "test_5_pages.xlsx")
                0 5 FirstFiveResults (fun df => df)
                [Banner; BannerRule; ChooseAnOption; MenuPreview; MenuFirstFive;
                 MenuAll; MenuCustom; Prompt (py "Enter your choice (1-4): ")])
      as (df & R & F & (between & C) & _ & P); [lia | ].
    exists df. split; [exact R | ]. split; [exact F | ]. split; [exact P | ].
    rewrite C. apply in_or_app; right; apply in_or_app; right; cbn; auto.
  - rewrite (main_choice_3 db py_int _ _ _ E).
    destruct (call_scan_nonempty db doc (py "BSHM.pdf")
                (py "extracted_names_passkeys.xlsx")
                0 273 FirstTenResults (df_head 10)
                [Banner; BannerRule; ChooseAnOption; MenuPreview; MenuFirstFive;
                 MenuAll; MenuCustom; Prompt (py "Enter your choice (1-4): ")])
      as (df & R & F & (between & C) & _ & P); [lia | ].
    exists df. split; [exact R | ]. split; [exact F | ]. split; [exact P | ].
    rewrite C. apply in_or_app; right; apply in_or_app; right; cbn; auto.
Qed.

Lemma menu_ranges_start_at_page_one_witness :
  three_pages <> [] /\
  exists df,
    files (snd (main PyStr.ucd_none int_of_digits true (Opened three_pages)
                  [py "3"])) = [(py "extracted_names_passkeys.xlsx", df)] /\
    map Page (records df) = [1; 2; 3]%Z.
Proof.
  assert (Hd : three_pages <> []) by discriminate.
  split; [exact Hd | ].
  destruct (proj2 (menu_ranges_start_at_page_one PyStr.ucd_none int_of_digits
                     three_pages (py "3") [] Hd) eq_refl)
    as (df & _ & F & P & _).
  exists df. split; [exact F | exact P].
Defined.

(** X15: A document that cannot be opened: the preview (option 1) has no handler
    and the exception of [fitz.open] leaves [main]; options 2 and 3 go
    through [scan_pdf_batch], which reports the error, so [main] ends
    normally with the error line printed, no results shown and no file
    written. *)
Theorem open_failure_by_option (db : PyStr.ucd) (py_int : pystr -> option Z)
  (e line1 : pystr) (more : list pystr) :
  let run := main db py_int true (OpenError e) (line1 :: more) in
  (PyStr.strip db line1 = py "1" -> fst run = Escapes (OpenFailed e)) /\
  (PyStr.strip db line1 = py "2" \/ PyStr.strip db line1 = py "3" ->
   fst run = Done /\
   files (snd run) = [] /\
   In (FromBatch (ErrorOpeningPDF e)) (console (snd run)) /\
   (forall df, ~ In (PrintFrame df) (console (snd run)))).
Proof.
  intros run. subst run. split.
  - intros E. now rewrite (main_choice_1 db py_int _ _ _ E).
  - intros [E | E];
      [rewrite (main_choice_2 db py_int _ _ _ E)
      | rewrite (main_choice_3 db py_int _ _ _ E)];
      cbn; (split; [reflexivity | ]); (split; [reflexivity | ]);
      (split; [tauto | ]); intros df; intuition discriminate.
Qed.

Lemma open_failure_by_option_witness :
  fst (main PyStr.ucd_none int_of_digits true (OpenError (py "cannot open"))
         [py "1"]) = Escapes (OpenFailed (py "cannot open")) /\
  fst (main PyStr.ucd_none int_of_digits true (OpenError (py "cannot open"))
         [py "2"]) = Done.
Proof.
  split.
  - exact (proj1 (open_failure_by_option PyStr.ucd_none int_of_digits
                    (py "cannot open") (py "1") []) eq_refl).
  - exact (proj1 (proj2 (open_failure_by_option PyStr.ucd_none int_of_digits
                           (py "cannot open") (py "2") []) (or_introl eq_refl))).
Defined.
